(** * Hospital kiosk backend: capacity accounting, booking and check-in

    A shallow embedding of [src/main.py] and [src/schemas.py].  Python values
    are modelled as follows: [str] as [string] (a sequence of characters with
    code points below 256), [int] as [Z], [float] as an IEEE 754 binary64
    value ([spec_float] at precision 53), [Optional[T]] as [option T], a
    stored document as a record, the collection as the list of its documents
    in natural order, and a handler as a function from the store to a result
    paired with the store it leaves behind. *)

From Stdlib Require Import List String Ascii ZArith Lia Bool Arith.
From Stdlib Require Import DecimalString SpecFloat.
Import ListNotations.

Open Scope string_scope.
Open Scope Z_scope.

(** ** Python built-ins used by the handlers *)

Module Py.

(** Truthiness of a [str]: the empty string is falsy. *)
Definition truthy (s : string) : bool :=
  match s with
  | EmptyString => false
  | String _ _ => true
  end.

(** Truthiness of an [Optional[str]]: [None] and [""] are falsy. *)
Definition truthy_opt (o : option string) : bool :=
  match o with
  | None => false
  | Some s => truthy s
  end.

(** [all(xs)] on a list of optional strings. *)
Definition all (xs : list (option string)) : bool := forallb truthy_opt xs.

(** [len(s)]. *)
Definition len (s : string) : Z := Z.of_nat (String.length s).

(** [s[:n]]. *)
Fixpoint slice_to (n : nat) (s : string) : string :=
  match n, s with
  | O, _ => ""
  | S _, EmptyString => ""
  | S n', String c s' => String c (slice_to n' s')
  end.

(** [c.upper()] on the letters [a]..[z]; every other character of the
    registry names it is applied to is left as it is. *)
Definition upper_ascii (c : ascii) : ascii :=
  let n := nat_of_ascii c in
  if (andb (97 <=? n) (n <=? 122))%nat then ascii_of_nat (n - 32) else c.

(** [s.upper()]. *)
Fixpoint upper (s : string) : string :=
  match s with
  | EmptyString => ""
  | String c s' => String (upper_ascii c) (upper s')
  end.

(** [s.replace(c, '')] for a one-character [c]. *)
Fixpoint remove_char (c : ascii) (s : string) : string :=
  match s with
  | EmptyString => ""
  | String a s' =>
      if Ascii.eqb a c then remove_char c s' else String a (remove_char c s')
  end.

(** [n * "0"]. *)
Fixpoint zeros (n : nat) : string :=
  match n with
  | O => ""
  | S n' => String "0" (zeros n')
  end.

(** [str(z)] for a non-negative [z]. *)
Definition digits (z : Z) : string :=
  NilZero.string_of_uint (N.to_uint (Z.to_N z)).

(** [format(z, "0<w>d")]: sign-aware zero padding to width [w]. *)
Definition format_0d (w : nat) (z : Z) : string :=
  if z <? 0 then
    let ds := digits (- z) in
    String "-" (zeros (w - 1 - String.length ds) ++ ds)
  else
    let ds := digits z in
    zeros (w - String.length ds) ++ ds.

(** [range(a, b)]. *)
Definition range (a b : Z) : list Z :=
  map (fun k => a + Z.of_nat k) (seq 0 (Z.to_nat (b - a))).

(** [ch] is matched by [\d]; among the code points below 256 the decimal
    digits are exactly [0]..[9]. *)
Definition is_digit (ch : ascii) : bool :=
  let n := nat_of_ascii ch in (andb (48 <=? n) (n <=? 57))%nat.

(** *** Floats: binary64 *)

Definition prec : Z := 53.
Definition emax : Z := 1024.

(** [float(z)]. *)
Definition float_of_int (z : Z) : spec_float :=
  binary_normalize prec emax z 0 false.

(** The integer [z] as an unrounded operand of a correctly rounded
    operation. *)
Definition exact_int (z : Z) : spec_float :=
  match z with
  | Z0 => S754_zero false
  | Zpos p => S754_finite false p 0
  | Zneg p => S754_finite true p 0
  end.

(** [a / b] on two ints, [b] non-zero: the quotient rounded once to the
    nearest binary64 value. *)
Definition truediv (a b : Z) : spec_float :=
  SFdiv prec emax (exact_int a) (exact_int b).

(** [x * k] for a float [x] and an int [k]. *)
Definition mul_int (x : spec_float) (k : Z) : spec_float :=
  SFmul prec emax x (float_of_int k).

(** Nearest integer to [m / 2^p], ties to the even one. *)
Definition round_half_even_shift (m : Z) (p : positive) : Z :=
  let d := Z.pow_pos 2 p in
  let q := m / d in
  let r := m mod d in
  match Z.compare (2 * r) d with
  | Lt => q
  | Gt => q + 1
  | Eq => if Z.even q then q else q + 1
  end.

(** [round(x)] with one argument: the nearest int, ties to even.  [None]
    stands for the [OverflowError] / [ValueError] raised on an infinity or
    a NaN. *)
Definition round (x : spec_float) : option Z :=
  match x with
  | S754_zero _ => Some 0
  | S754_finite s m e =>
      let a :=
        match e with
        | Z0 => Zpos m
        | Zpos p => Zpos m * Z.pow_pos 2 p
        | Zneg p => round_half_even_shift (Zpos m) p
        end in
      Some (if s then - a else a)
  | S754_infinity _ => None
  | S754_nan => None
  end.

(** *** [datetime.date] *)

Definition is_leap (year : Z) : bool :=
  andb (year mod 4 =? 0) (orb (negb (year mod 100 =? 0)) (year mod 400 =? 0)).

Definition days_in_month (year month : Z) : Z :=
  if andb (month =? 2) (is_leap year) then 29
  else nth (Z.to_nat month) [0; 31; 28; 31; 30; 31; 30; 31; 31; 30; 31; 30; 31] 0.

Record date := { year : Z; month : Z; day : Z }.

(** [date(year, month, day)]; [None] stands for the [ValueError]. *)
Definition mk_date (y m d : Z) : option date :=
  if negb (andb (1 <=? y) (y <=? 9999)) then None
  else if negb (andb (1 <=? m) (m <=? 12)) then None
  else if negb (andb (1 <=? d) (d <=? days_in_month y m)) then None
  else Some {| year := y; month := m; day := d |}.

(** [d.strftime("%Y-%m-%d")]. *)
Definition strftime_ymd (d : date) : string :=
  format_0d 4 (year d) ++ "-" ++ format_0d 2 (month d) ++ "-" ++ format_0d 2 (day d).

End Py.

(** ** Schemas ([src/schemas.py]) *)

(** [DepartmentName] and the registry of [main.py]. *)
Definition DEPARTMENTS : list string :=
  ["General"; "Cardiology"; "Pediatrics"; "Radiology"; "Orthopedics"].

Definition DEPARTMENT_CAPACITY : Z := 25.

(** [x in DEPARTMENTS]. *)
Definition in_DEPARTMENTS (x : string) : bool :=
  existsb (String.eqb x) DEPARTMENTS.

(** An address accepted by [EmailStr]; validating it again returns it. *)
Definition EmailStr : Type := string.

Definition datetime : Type := Z.
Definition ObjectId : Type := nat.

Module AppointmentCreate.
Record t := {
  patient_name : string;
  phone : string;
  email : option EmailStr;
  department : string;
  date : string;
  time_slot : option string
}.
End AppointmentCreate.

Module CheckInRequest.
Record t := {
  booking_code : option string;
  patient_name : option string;
  phone : option string;
  department : option string;
  date : option string
}.
End CheckInRequest.

Module Appointment.
Record t := {
  patient_name : string;
  phone : string;
  email : option EmailStr;
  department : string;
  date : string;
  time_slot : option string;
  status : string;
  booking_code : option string
}.

(** One element of the pattern of [date]. *)
Inductive token := Digit | Lit (c : ascii).

Definition token_matches (t : token) (c : ascii) : bool :=
  match t with
  | Digit => Py.is_digit c
  | Lit a => Ascii.eqb c a
  end.

(** The whole string is matched by the token sequence (the pattern is
    anchored at both ends). *)
Fixpoint full_match (ts : list token) (s : string) : bool :=
  match ts, s with
  | [], EmptyString => true
  | t :: ts', String c s' => andb (token_matches t c) (full_match ts' s')
  | _, _ => false
  end.

(** [^\d{4}-\d{2}-\d{2}$] *)
Definition date_pattern : list token :=
  [Digit; Digit; Digit; Digit; Lit "-"; Digit; Digit; Lit "-"; Digit; Digit].

Definition date_ok (s : string) : bool := full_match date_pattern s.

Definition status_ok (s : string) : bool :=
  orb (String.eqb s "booked") (String.eqb s "checked_in").

(** The field constraints checked when the model is constructed. *)
Definition valid (a : t) : bool :=
  andb (2 <=? Py.len (patient_name a))
    (andb (in_DEPARTMENTS (department a))
       (andb (date_ok (date a)) (status_ok (status a)))).
End Appointment.

(** A stored document of the [appointment] collection. *)
Module Doc.
Record t := {
  _id : ObjectId;
  patient_name : string;
  phone : string;
  email : option EmailStr;
  department : string;
  date : string;
  time_slot : option string;
  status : string;
  booking_code : option string;
  checked_in_at : option datetime
}.

Definition of_model (oid : ObjectId) (a : Appointment.t) : t :=
  {| _id := oid;
     patient_name := Appointment.patient_name a;
     phone := Appointment.phone a;
     email := Appointment.email a;
     department := Appointment.department a;
     date := Appointment.date a;
     time_slot := Appointment.time_slot a;
     status := Appointment.status a;
     booking_code := Appointment.booking_code a;
     checked_in_at := None |}.

(** The string-valued fields a filter can name. *)
Definition get (key : string) (d : t) : option string :=
  if String.eqb key "patient_name" then Some (patient_name d)
  else if String.eqb key "phone" then Some (phone d)
  else if String.eqb key "email" then email d
  else if String.eqb key "department" then Some (department d)
  else if String.eqb key "date" then Some (date d)
  else if String.eqb key "time_slot" then time_slot d
  else if String.eqb key "status" then Some (status d)
  else if String.eqb key "booking_code" then booking_code d
  else None.

(** [{"$set": {"status": s, "checked_in_at": ts}}] *)
Definition set_checked_in (s : string) (ts : datetime) (d : t) : t :=
  {| _id := _id d;
     patient_name := patient_name d;
     phone := phone d;
     email := email d;
     department := department d;
     date := date d;
     time_slot := time_slot d;
     status := s;
     booking_code := booking_code d;
     checked_in_at := Some ts |}.
End Doc.

(** ** The document store *)

Definition Collection : Type := list Doc.t.

(** [db]: [None] when the store was not initialised. *)
Definition Db : Type := option Collection.

(** A filter document: every named field equals the given string. *)
Definition Query : Type := list (string * string).

Definition opt_eqb (o : option string) (v : string) : bool :=
  match o with
  | Some s => String.eqb s v
  | None => false
  end.

Definition matches (q : Query) (d : Doc.t) : bool :=
  forallb (fun kv => opt_eqb (Doc.get (fst kv) d) (snd kv)) q.

(** [collection.find_one(q)]: the first match in natural order. *)
Definition find_one (q : Query) (c : Collection) : option Doc.t :=
  find (matches q) c.

(** [collection.update_one({"_id": oid}, {"$set": ...})]: the first document
    with that identifier is replaced by its update. *)
Fixpoint update_one (oid : ObjectId) (f : Doc.t -> Doc.t) (c : Collection) : Collection :=
  match c with
  | [] => []
  | d :: c' => if Nat.eqb (Doc._id d) oid then f d :: c' else d :: update_one oid f c'
  end.

(** [collection.aggregate([{"$match": q}, {"$count": "count"}])]: one result
    holding the number of matches, and no result when nothing matches. *)
Definition aggregate_match_count (q : Query) (c : Collection) : list Z :=
  match filter (matches q) c with
  | [] => []
  | ds => [Z.of_nat (List.length ds)]
  end.

(** The identifier the store gives to the next inserted document. *)
Definition fresh_id (c : Collection) : ObjectId :=
  S (fold_right Nat.max O (map Doc._id c)).

(** ** Handlers as store transformers *)

Inductive Exn :=
| HTTPException (status_code : Z) (detail : string)
| ValidationError (model : string)
| RequestValidationError (param : string)
| PyError (name : string)
| StoreError.

Inductive Result (A : Type) :=
| Ok (a : A)
| Raise (e : Exn).
Arguments Ok {A} a.
Arguments Raise {A} e.

Definition M (A : Type) : Type := Db -> Result A * Db.

Definition ret {A} (a : A) : M A := fun db => (Ok a, db).
Definition raise {A} (e : Exn) : M A := fun db => (Raise e, db).
Definition bind {A B} (m : M A) (k : A -> M B) : M B :=
  fun db =>
    match m db with
    | (Ok a, db') => k a db'
    | (Raise e, db') => (Raise e, db')
    end.
Definition reads {A} (f : Db -> A) : M A := fun db => (Ok (f db), db).
Definition guard (b : bool) (e : Exn) : M unit := if b then ret tt else raise e.

Notation "x <- m ;; k" := (bind m (fun x => k))
  (at level 61, m at next level, right associativity).
Notation "m ;;; k" := (bind m (fun _ => k))
  (at level 61, right associativity).

(** [for x in xs: s = body(s, x)]. *)
Fixpoint for_each {A S} (xs : list A) (body : S -> A -> M S) (s : S) : M S :=
  match xs with
  | [] => ret s
  | x :: xs' => s' <- body s x ;; for_each xs' body s'
  end.

(** The error kinds of the specification. *)
Definition InvalidDepartment : Exn := HTTPException 400 "Unknown department".
Definition CapacityExceeded : Exn :=
  HTTPException 400 "No slots available for this date and department".
Definition MissingCheckInFields : Exn :=
  HTTPException 400 "Provide booking_code or name, phone, department and date".
Definition AppointmentNotFound : Exn := HTTPException 404 "Appointment not found".
Definition DatabaseNotAvailable : Exn := HTTPException 500 "Database not available".

(** Modelled from the spec: [create_document] of the store adapter
    ([database.py] is not among the sources).  It persists one new document
    built from the model, at the end of the collection and under a fresh
    identifier, which it returns; it fails when the store is unavailable. *)
Definition create_document (doc : Appointment.t) : M ObjectId :=
  fun db =>
    match db with
    | None => (Raise StoreError, db)
    | Some c => let oid := fresh_id c in (Ok oid, Some (c ++ [Doc.of_model oid doc])%list)
    end.

(** Modelled from the spec: [get_documents] of the store adapter
    ([database.py] is not among the sources).  It reads the documents that
    match the filter, in store order; it fails when the store is
    unavailable. *)
Definition get_documents (q : Query) : M (list Doc.t) :=
  fun db =>
    match db with
    | None => (Raise StoreError, db)
    | Some c => (Ok (filter (matches q) c), db)
    end.

(** ** Responses *)

Module Availability.
Record t := {
  department : string;
  date : string;
  capacity : Z;
  booked : Z;
  remaining : Z;
  used_pct : Z
}.
End Availability.

Module DayEntry.
Record t := { booked : Z; remaining : Z; used_pct : Z; capacity : Z }.
End DayEntry.

(** A [dict] keyed by strings, in insertion order. *)
Definition Dict (V : Type) : Type := list (string * V).

(** [d[k] = v]: an existing key keeps its place, a new one goes last. *)
Fixpoint dict_set {V} (d : Dict V) (k : string) (v : V) : Dict V :=
  match d with
  | [] => [(k, v)]
  | (k', v') :: d' =>
      if String.eqb k' k then (k', v) :: d' else (k', v') :: dict_set d' k v
  end.

Module Calendar.
Record t := {
  department : string;
  year : Z;
  month : Z;
  days : Dict DayEntry.t
}.
End Calendar.

Module Booking.
Record t := { id : ObjectId; booking_code : string; status : string }.
End Booking.

Module CheckIn.
Record t := { id : ObjectId; status : string; booking_code : option string }.
End CheckIn.

Module Patient.
Record t := {
  id : ObjectId;
  patient_name : string;
  phone : string;
  email : option EmailStr;
  department : string;
  date : string;
  status : string;
  booking_code : option string
}.
End Patient.

Module Summary.
Record t := { total : Z; checked_in : Z; booked : Z }.
End Summary.

Module Patients.
Record t := { summary : Summary.t; patients : list Patient.t }.
End Patients.

(** ** [src/main.py] *)

Definition count_booked_for (department day_str : string) (db : Db) : Z :=
  let pipeline : Query := [("department", department); ("date", day_str)] in
  let result :=
    match db with
    | Some c => aggregate_match_count pipeline c
    | None => []
    end in
  match result with
  | r :: _ => r
  | [] => 0
  end.

(** [int(round((booked / DEPARTMENT_CAPACITY) * 100)) if DEPARTMENT_CAPACITY else 0],
    the expression of both availability handlers. *)
Definition used_pct_of (booked : Z) : M Z :=
  if negb (DEPARTMENT_CAPACITY =? 0) then
    match Py.round (Py.mul_int (Py.truediv booked DEPARTMENT_CAPACITY) 100) with
    | Some z => ret z
    | None => raise (PyError "OverflowError")
    end
  else ret 0.

Definition get_availability (department date_str : string) : M Availability.t :=
  guard (in_DEPARTMENTS department) InvalidDepartment ;;;
  booked <- reads (count_booked_for department date_str) ;;
  let remaining := Z.max 0 (DEPARTMENT_CAPACITY - booked) in
  used_pct <- used_pct_of booked ;;
  ret {| Availability.department := department;
         Availability.date := date_str;
         Availability.capacity := DEPARTMENT_CAPACITY;
         Availability.booked := booked;
         Availability.remaining := remaining;
         Availability.used_pct := used_pct |}.

(** One round of the loop over the candidate days. *)
Definition calendar_day (department : string) (year month : Z)
    (days : Dict DayEntry.t) (day : Z) : M (Dict DayEntry.t) :=
  match Py.mk_date year month day with
  | None => ret days
  | Some d =>
      let d_str := Py.strftime_ymd d in
      booked <- reads (count_booked_for department d_str) ;;
      used_pct <- used_pct_of booked ;;
      ret (dict_set days d_str
             {| DayEntry.booked := booked;
                DayEntry.remaining := Z.max 0 (DEPARTMENT_CAPACITY - booked);
                DayEntry.used_pct := used_pct;
                DayEntry.capacity := DEPARTMENT_CAPACITY |})
  end.

Definition calendar_availability (department : string) (year month : Z) : M Calendar.t :=
  guard (andb (1970 <=? year) (year <=? 2100)) (RequestValidationError "year") ;;;
  guard (andb (1 <=? month) (month <=? 12)) (RequestValidationError "month") ;;;
  guard (in_DEPARTMENTS department) InvalidDepartment ;;;
  days <- for_each (Py.range 1 32) (calendar_day department year month) [] ;;
  ret {| Calendar.department := department;
         Calendar.year := year;
         Calendar.month := month;
         Calendar.days := days |}.

Definition create_appointment (payload : AppointmentCreate.t) : M Booking.t :=
  guard (in_DEPARTMENTS (AppointmentCreate.department payload)) InvalidDepartment ;;;
  booked <- reads (count_booked_for (AppointmentCreate.department payload)
                     (AppointmentCreate.date payload)) ;;
  guard (negb (booked >=? DEPARTMENT_CAPACITY)) CapacityExceeded ;;;
  let code_base :=
    Py.upper (Py.slice_to 3 (AppointmentCreate.department payload))
    ++ Py.remove_char "-" (AppointmentCreate.date payload) in
  let counter := booked + 1 in
  let booking_code := code_base ++ "-" ++ Py.format_0d 3 counter in
  let doc :=
    {| Appointment.patient_name := AppointmentCreate.patient_name payload;
       Appointment.phone := AppointmentCreate.phone payload;
       Appointment.email := AppointmentCreate.email payload;
       Appointment.department := AppointmentCreate.department payload;
       Appointment.date := AppointmentCreate.date payload;
       Appointment.time_slot := AppointmentCreate.time_slot payload;
       Appointment.status := "booked";
       Appointment.booking_code := Some booking_code |} in
  guard (Appointment.valid doc) (ValidationError "Appointment") ;;;
  inserted_id <- create_document doc ;;
  ret {| Booking.id := inserted_id;
         Booking.booking_code := booking_code;
         Booking.status := "booked" |}.

(** [query[key] = value] when the optional argument is truthy. *)
Definition filter_on (key : string) (o : option string) : Query :=
  match o with
  | Some v => if Py.truthy v then [(key, v)] else []
  | None => []
  end.

(** The documents of the filtered read, the identifier of each presented
    under the key [id]. *)
Definition list_appointments (department date_str : option string) : M (list Doc.t) :=
  let query := (filter_on "department" department ++ filter_on "date" date_str)%list in
  get_documents query.

(** The value behind an optional argument that was tested truthy. *)
Definition the (o : option string) : string :=
  match o with
  | Some s => s
  | None => ""
  end.

(** The filter built by [check_in], or the refusal to build one. *)
Definition check_in_query (payload : CheckInRequest.t) : M Query :=
  if Py.truthy_opt (CheckInRequest.booking_code payload) then
    ret [("booking_code", the (CheckInRequest.booking_code payload))]
  else
    let required :=
      [CheckInRequest.patient_name payload; CheckInRequest.phone payload;
       CheckInRequest.department payload; CheckInRequest.date payload] in
    guard (Py.all required) MissingCheckInFields ;;;
    ret [("patient_name", the (CheckInRequest.patient_name payload));
         ("phone", the (CheckInRequest.phone payload));
         ("department", the (CheckInRequest.department payload));
         ("date", the (CheckInRequest.date payload))].

(** [db is None]. *)
Definition db_is_None : M bool :=
  reads (fun db => match db with None => true | Some _ => false end).

(** [db["appointment"].find_one(q)]. *)
Definition db_find_one (q : Query) : M (option Doc.t) :=
  reads (fun db => match db with Some c => find_one q c | None => None end).

(** [db["appointment"].update_one({"_id": oid}, {"$set": ...})]. *)
Definition db_update_one (oid : ObjectId) (f : Doc.t -> Doc.t) : M unit :=
  fun db => (Ok tt, option_map (update_one oid f) db).

(** [utcnow] is the reading of the clock taken by the update. *)
Definition check_in (utcnow : datetime) (payload : CheckInRequest.t) : M CheckIn.t :=
  unavailable <- db_is_None ;;
  guard (negb unavailable) DatabaseNotAvailable ;;;
  query <- check_in_query payload ;;
  found <- db_find_one query ;;
  match found with
  | None => raise AppointmentNotFound
  | Some appt =>
      if String.eqb (Doc.status appt) "checked_in" then
        ret {| CheckIn.id := Doc._id appt;
               CheckIn.status := "checked_in";
               CheckIn.booking_code := Doc.booking_code appt |}
      else
        db_update_one (Doc._id appt) (Doc.set_checked_in "checked_in" utcnow) ;;;
        ret {| CheckIn.id := Doc._id appt;
               CheckIn.status := "checked_in";
               CheckIn.booking_code := Doc.booking_code appt |}
  end.

(** The fields listed for one document; a stored document always has a
    status, so the default of [d.get("status", "booked")] is not used. *)
Definition project (d : Doc.t) : Patient.t :=
  {| Patient.id := Doc._id d;
     Patient.patient_name := Doc.patient_name d;
     Patient.phone := Doc.phone d;
     Patient.email := Doc.email d;
     Patient.department := Doc.department d;
     Patient.date := Doc.date d;
     Patient.status := Doc.status d;
     Patient.booking_code := Doc.booking_code d |}.

(** [sum(1 for x in xs if p(x))]. *)
Definition count_if {A} (p : A -> bool) (xs : list A) : Z :=
  fold_left (fun acc x => if p x then acc + 1 else acc) xs 0.

Definition patients_tracking (date_str : option string) : M Patients.t :=
  let query := filter_on "date" date_str in
  docs <- get_documents query ;;
  let out := map project docs in
  let summary :=
    {| Summary.total := Z.of_nat (List.length out);
       Summary.checked_in :=
         count_if (fun x => String.eqb (Patient.status x) "checked_in") out;
       Summary.booked :=
         count_if (fun x => negb (String.eqb (Patient.status x) "checked_in")) out |} in
  ret {| Patients.summary := summary; Patients.patients := out |}.

(** ** The check-in request as served *)

(** The literals of [DepartmentName] ([schemas.py]). *)
Definition DepartmentName : list string :=
  ["General"; "Cardiology"; "Pediatrics"; "Radiology"; "Orthopedics"].

(** The body is accepted by the [CheckInRequest] model: a department that
    is supplied is one of the literals; the other fields take any string. *)
Definition CheckInRequest_valid (body : CheckInRequest.t) : bool :=
  match CheckInRequest.department body with
  | None => true
  | Some s => existsb (String.eqb s) DepartmentName
  end.

(** [POST /checkin]: the body is validated against [CheckInRequest], and a
    body the model refuses is answered with 422 before [check_in] runs. *)
Definition post_checkin (utcnow : datetime) (body : CheckInRequest.t) : M CheckIn.t :=
  guard (CheckInRequest_valid body) (RequestValidationError "department") ;;;
  check_in utcnow body.

(** ** Vocabulary of the properties *)

(** The document is an appointment of that department on that date. *)
Definition same_slot (department day_str : string) (d : Doc.t) : bool :=
  andb (String.eqb (Doc.department d) department) (String.eqb (Doc.date d) day_str).

(** The number of persisted appointments of a department on a date. *)
Definition occupancy (department day_str : string) (db : Db) : Z :=
  match db with
  | Some c => Z.of_nat (List.length (filter (same_slot department day_str) c))
  | None => 0
  end.

(** The character of a decimal digit. *)
Definition digit_char (k : Z) : ascii := ascii_of_nat (48 + Z.to_nat k).

(** The decimal numeral of [k] on exactly three digits. *)
Definition three_digits (k : Z) : string :=
  String (digit_char (k / 100))
    (String (digit_char (k / 10 mod 10)) (String (digit_char (k mod 10)) "")).

(** The decimal numeral of [k] on exactly two digits. *)
Definition two_digits (k : Z) : string :=
  String (digit_char (k / 10)) (String (digit_char (k mod 10)) "").

(** The decimal numeral of [k] on exactly four digits. *)
Definition four_digits (k : Z) : string :=
  String (digit_char (k / 1000))
    (String (digit_char (k / 100 mod 10))
       (String (digit_char (k / 10 mod 10)) (String (digit_char (k mod 10)) ""))).

(** The input a booking needs besides a free slot. *)
Definition well_formed (payload : AppointmentCreate.t) : Prop :=
  2 <= Py.len (AppointmentCreate.patient_name payload) /\
  Appointment.date_ok (AppointmentCreate.date payload) = true.

(** The document a successful booking persists. *)
Definition booked_doc (oid : ObjectId) (code : string) (payload : AppointmentCreate.t) : Doc.t :=
  {| Doc._id := oid;
     Doc.patient_name := AppointmentCreate.patient_name payload;
     Doc.phone := AppointmentCreate.phone payload;
     Doc.email := AppointmentCreate.email payload;
     Doc.department := AppointmentCreate.department payload;
     Doc.date := AppointmentCreate.date payload;
     Doc.time_slot := AppointmentCreate.time_slot payload;
     Doc.status := "booked";
     Doc.booking_code := Some code;
     Doc.checked_in_at := None |}.

(** Sample requests. *)
Definition sample_booking (department day_str : string) : AppointmentCreate.t :=
  {| AppointmentCreate.patient_name := "Ann Lee";
     AppointmentCreate.phone := "555-0100";
     AppointmentCreate.email := None;
     AppointmentCreate.department := department;
     AppointmentCreate.date := day_str;
     AppointmentCreate.time_slot := None |}.

(** The store after a sequence of bookings. *)
Fixpoint book_all (ps : list AppointmentCreate.t) (db : Db) : Db :=
  match ps with
  | [] => db
  | p :: ps' => book_all ps' (snd (create_appointment p db))
  end.

(** A store holding [n] bookings of one department and date. *)
Definition store_with (n : nat) (department day_str : string) : Db :=
  book_all (repeat (sample_booking department day_str) n) (Some []).

(** A property checked on [fuel] consecutive integers from [n] on. *)
Fixpoint holds_from (p : Z -> bool) (fuel : nat) (n : Z) : bool :=
  match fuel with
  | O => true
  | S f => andb (p n) (holds_from p f (n + 1))
  end.

(** The booking code of the next appointment of the payload's slot. *)
Definition next_booking_code (payload : AppointmentCreate.t) (db : Db) : string :=
  Py.upper (Py.slice_to 3 (AppointmentCreate.department payload))
  ++ Py.remove_char "-" (AppointmentCreate.date payload)
  ++ "-"
  ++ Py.format_0d 3
       (occupancy (AppointmentCreate.department payload) (AppointmentCreate.date payload) db + 1).

(** The document carries that booking code. *)
Definition by_code (code : string) (d : Doc.t) : bool :=
  opt_eqb (Doc.booking_code d) code.

(** The document carries exactly those four fields. *)
Definition by_fields (name phone department day_str : string) (d : Doc.t) : bool :=
  andb (String.eqb (Doc.patient_name d) name)
    (andb (String.eqb (Doc.phone d) phone)
       (andb (String.eqb (Doc.department d) department)
          (String.eqb (Doc.date d) day_str))).

(** What [check_in] does once its target is resolved: no target is a
    refusal; a target already checked in is reported and left alone; any other
    target is marked before it is reported. *)
Definition settle (utcnow : datetime) (target : option Doc.t) (c : Collection)
  : Result CheckIn.t * Db :=
  match target with
  | None => (Raise AppointmentNotFound, Some c)
  | Some appt =>
      (Ok {| CheckIn.id := Doc._id appt;
             CheckIn.status := "checked_in";
             CheckIn.booking_code := Doc.booking_code appt |},
       if String.eqb (Doc.status appt) "checked_in" then Some c
       else Some (update_one (Doc._id appt) (Doc.set_checked_in "checked_in" utcnow) c))
  end.

(** The argument was left out or is the empty string. *)
Definition blank (o : option string) : Prop := o = None \/ o = Some "".

(** The reading of the lookup rule in which a booking code counts as soon as
    it is supplied, whatever its content. *)
Definition resolves_by_supplied_code : Prop :=
  forall (utcnow : datetime) (payload : CheckInRequest.t) (c : Collection) (code : string),
    CheckInRequest.booking_code payload = Some code ->
    check_in utcnow payload (Some c) = settle utcnow (find (by_code code) c) c.

(** Sample check-in requests. *)
Definition by_code_request (code : string) : CheckInRequest.t :=
  {| CheckInRequest.booking_code := Some code;
     CheckInRequest.patient_name := None;
     CheckInRequest.phone := None;
     CheckInRequest.department := None;
     CheckInRequest.date := None |}.

Definition by_fields_request (code : option string) (name phone department day_str : string)
  : CheckInRequest.t :=
  {| CheckInRequest.booking_code := code;
     CheckInRequest.patient_name := Some name;
     CheckInRequest.phone := Some phone;
     CheckInRequest.department := Some department;
     CheckInRequest.date := Some day_str |}.

(** The request with its booking code left out. *)
Definition without_code (payload : CheckInRequest.t) : CheckInRequest.t :=
  {| CheckInRequest.booking_code := None;
     CheckInRequest.patient_name := CheckInRequest.patient_name payload;
     CheckInRequest.phone := CheckInRequest.phone payload;
     CheckInRequest.department := CheckInRequest.department payload;
     CheckInRequest.date := CheckInRequest.date payload |}.

(** No two documents of the store share an identifier. *)
Definition ids_unique (db : Db) : Prop :=
  match db with
  | Some c => NoDup (map Doc._id c)
  | None => True
  end.

(** The document is dated that day. *)
Definition on_date (day_str : string) (d : Doc.t) : bool :=
  String.eqb (Doc.date d) day_str.

(** The document is checked in. *)
Definition is_checked_in (d : Doc.t) : bool := String.eqb (Doc.status d) "checked_in".

(** The appointments a patient listing covers: those of the date when a
    non-empty one is given, all of them otherwise. *)
Definition selected (date_str : option string) (c : Collection) : Collection :=
  match date_str with
  | Some (String a s) => filter (on_date (String a s)) c
  | Some EmptyString => c
  | None => c
  end.

(** The reading of the listing rule in which a date filters as soon as it is
    supplied, whatever its content. *)
Definition filters_by_supplied_date : Prop :=
  forall (c : Collection) (day_str : string),
    exists r,
      patients_tracking (Some day_str) (Some c) = (Ok r, Some c) /\
      Summary.total (Patients.summary r)
      = Z.of_nat (List.length (filter (on_date day_str) c)).

(** The integer nearest to the exact quotient [a / b] for a positive [b],
    the even one of the two when [a / b] lies half-way. *)
Definition nearest_even (a b : Z) : Z :=
  let q := a / b in
  match Z.compare (2 * (a mod b)) b with
  | Lt => q
  | Gt => q + 1
  | Eq => if Z.even q then q else q + 1
  end.

(** The largest occupancy of a slot for which the floating-point
    computation of the percentage has been evaluated. *)
Definition MAX_EVALUATED : Z := 9999.

(** The percentage expression yields four times the count. *)
Definition pct_is_fourfold (n : Z) : bool :=
  match Py.round (Py.mul_int (Py.truediv n DEPARTMENT_CAPACITY) 100) with
  | Some z => z =? 4 * n
  | None => false
  end.

(** The entry of the calendar for a day with [booked] appointments. *)
Definition day_entry (booked : Z) : DayEntry.t :=
  {| DayEntry.booked := booked;
     DayEntry.remaining := Z.max 0 (DEPARTMENT_CAPACITY - booked);
     DayEntry.used_pct := nearest_even (booked * 100) DEPARTMENT_CAPACITY;
     DayEntry.capacity := DEPARTMENT_CAPACITY |}.

(** The length of a month of the Gregorian calendar. *)
Definition gregorian_month_length (year month : Z) : Z :=
  let leap :=
    orb (andb (year mod 4 =? 0) (negb (year mod 100 =? 0))) (year mod 400 =? 0) in
  match month with
  | 1 | 3 | 5 | 7 | 8 | 10 | 12 => 31
  | 4 | 6 | 9 | 11 => 30
  | 2 => if leap then 29 else 28
  | _ => 0
  end.

(** The ISO 8601 calendar date [YYYY-MM-DD]. *)
Definition iso_date (year month day : Z) : string :=
  four_digits year ++ "-" ++ two_digits month ++ "-" ++ two_digits day.

(** The calendar of a month: one entry per day of the month, in order. *)
Definition month_days (department : string) (year month : Z) (db : Db) : Dict DayEntry.t :=
  map (fun day =>
         (iso_date year month day,
          day_entry (occupancy department (iso_date year month day) db)))
    (Py.range 1 (gregorian_month_length year month + 1)).

(** The keys of a [dict], in insertion order. *)
Definition keys {V} (d : Dict V) : list string := map fst d.

(** The day is a day of that month. *)
Definition in_month (year month day : Z) : bool :=
  andb (1 <=? day) (day <=? gregorian_month_length year month).

(** The entry under which a day of the month is filed. *)
Definition filed (department : string) (year month : Z) (db : Db) (day : Z)
  : string * DayEntry.t :=
  (iso_date year month day, day_entry (occupancy department (iso_date year month day) db)).

(** What one round of the loop does to the calendar. *)
Definition calendar_step (department : string) (year month : Z) (db : Db)
    (days : Dict DayEntry.t) (day : Z) : Dict DayEntry.t :=
  if in_month year month day
  then dict_set days (fst (filed department year month db day))
         (snd (filed department year month db day))
  else days.

(** ** The store over time *)

(** A request to one of the handlers that touch the store. *)
Inductive Op :=
| Book (payload : AppointmentCreate.t)
| CheckInAt (utcnow : datetime) (payload : CheckInRequest.t)
| Availability_of (department date_str : string)
| Calendar_of (department : string) (year month : Z)
| Appointments_of (department date_str : option string)
| Patients_of (date_str : option string).

(** The store a request leaves behind. *)
Definition run (op : Op) (db : Db) : Db :=
  match op with
  | Book payload => snd (create_appointment payload db)
  | CheckInAt utcnow payload => snd (check_in utcnow payload db)
  | Availability_of department date_str => snd (get_availability department date_str db)
  | Calendar_of department year month => snd (calendar_availability department year month db)
  | Appointments_of department date_str => snd (list_appointments department date_str db)
  | Patients_of date_str => snd (patients_tracking date_str db)
  end.

(** The store after a sequence of requests, served one at a time. *)
Definition run_all (ops : list Op) (db : Db) : Db :=
  fold_left (fun db op => run op db) ops db.

(** The store before the first request: unavailable, or empty. *)
Definition initial (db : Db) : Prop := db = None \/ db = Some [].

(** An appointment is either booked and never checked in, or checked in
    with the time of its check-in. *)
Definition lifecycle_ok (d : Doc.t) : Prop :=
  (Doc.status d = "booked" /\ Doc.checked_in_at d = None) \/
  (Doc.status d = "checked_in" /\ Doc.checked_in_at d <> None).

Definition store_ok (db : Db) : Prop :=
  ids_unique db /\
  match db with
  | Some c => Forall lifecycle_ok c
  | None => True
  end.

(** A document later on: untouched, or a booked one marked as checked in. *)
Definition doc_evolves (d d' : Doc.t) : Prop :=
  d' = d \/
  (Doc.status d = "booked" /\ exists ts, d' = Doc.set_checked_in "checked_in" ts d).

(** A store later on: every document is still there, in place, evolved;
    the documents after them are new. *)
Definition evolves (db db' : Db) : Prop :=
  match db, db' with
  | None, None => True
  | Some c, Some c' =>
      exists kept born,
        c' = (kept ++ born)%list /\ Forall2 doc_evolves c kept /\ Forall lifecycle_ok born
  | _, _ => False
  end.

(** What a single request may do to the store. *)
Definition step_effect (op : Op) (db db' : Db) : Prop :=
  match op with
  | Book _ =>
      db' = db \/
      exists c d,
        db = Some c /\ db' = Some (c ++ [d])%list /\
        Doc.status d = "booked" /\ Doc.checked_in_at d = None /\
        ~ In (Doc._id d) (map Doc._id c)
  | CheckInAt utcnow _ =>
      db' = db \/
      exists pre d post,
        db = Some (pre ++ d :: post)%list /\
        Doc.status d = "booked" /\
        db' = Some (pre ++ Doc.set_checked_in "checked_in" utcnow d :: post)%list
  | _ => db' = db
  end.

(** No slot holds more appointments than the capacity. *)
Definition within_capacity (db : Db) : Prop :=
  forall department day_str, occupancy department day_str db <= DEPARTMENT_CAPACITY.

(** The reading of the lookup rule in which the four fields are matched as
    soon as all of them are supplied, whatever their content. *)
Definition matches_whenever_supplied : Prop :=
  forall (utcnow : datetime) (payload : CheckInRequest.t) (c : Collection)
         (name phone department day_str : string),
    CheckInRequest.booking_code payload = None ->
    CheckInRequest.patient_name payload = Some name ->
    CheckInRequest.phone payload = Some phone ->
    CheckInRequest.department payload = Some department ->
    CheckInRequest.date payload = Some day_str ->
    check_in utcnow payload (Some c)
    = settle utcnow (find (by_fields name phone department day_str) c) c.

(** The reading of the truthiness rule in which an empty string in any of
    the four fields, the department included, is answered with the
    missing-fields error. *)
Definition empty_fields_count_as_missing : Prop :=
  forall (utcnow : datetime) (body : CheckInRequest.t) (c : Collection),
    blank (CheckInRequest.booking_code body) ->
    CheckInRequest.patient_name body = Some "" \/ CheckInRequest.phone body = Some "" \/
    CheckInRequest.department body = Some "" \/ CheckInRequest.date body = Some "" ->
    post_checkin utcnow body (Some c) = (Raise MissingCheckInFields, Some c).

(** The optional department argument of a listing, as its type has it:
    left out, or one of the literals. *)
Definition typed_department (o : option string) : Prop :=
  match o with
  | None => True
  | Some s => In s DepartmentName
  end.

(** ** Vocabulary of the further properties *)

(** The document with its check-in state erased: what a check-in never
    touches. *)
Definition blanked (d : Doc.t) : Doc.t :=
  {| Doc._id := Doc._id d;
     Doc.patient_name := Doc.patient_name d;
     Doc.phone := Doc.phone d;
     Doc.email := Doc.email d;
     Doc.department := Doc.department d;
     Doc.date := Doc.date d;
     Doc.time_slot := Doc.time_slot d;
     Doc.status := "";
     Doc.booking_code := Doc.booking_code d;
     Doc.checked_in_at := None |}.

(** The argument is left out or empty, or equals the field. *)
Definition passes (o : option string) (field : string) : bool :=
  match o with
  | Some (String a s) => String.eqb field (String a s)
  | Some EmptyString => true
  | None => true
  end.

(** The documents a filtered listing returns. *)
Definition listed (department date_str : option string) (d : Doc.t) : bool :=
  andb (passes department (Doc.department d)) (passes date_str (Doc.date d)).

(** The booking code of the [seq]-th appointment of a slot. *)
Definition code_of (department day_str : string) (seq : Z) : string :=
  Py.upper (Py.slice_to 3 department)
  ++ Py.remove_char "-" day_str ++ "-" ++ Py.format_0d 3 seq.

(** A collection built by bookings alone: each document was valid, found
    its slot below the capacity, and was numbered after the appointments of
    its slot that were there before it. *)
Inductive numbered : Collection -> Prop :=
| numbered_nil : numbered []
| numbered_snoc (c : Collection) (d : Doc.t) :
    numbered c ->
    In (Doc.department d) DEPARTMENTS ->
    Appointment.date_ok (Doc.date d) = true ->
    2 <= Py.len (Doc.patient_name d) ->
    occupancy (Doc.department d) (Doc.date d) (Some c) < DEPARTMENT_CAPACITY ->
    Doc.booking_code d
    = Some (code_of (Doc.department d) (Doc.date d)
              (occupancy (Doc.department d) (Doc.date d) (Some c) + 1)) ->
    numbered (c ++ [d])%list.

(** The store is unavailable, or its documents, check-in state apart, were
    built by bookings alone. *)
Definition booked_in_order (db : Db) : Prop :=
  match db with
  | Some c => numbered (map blanked c)
  | None => True
  end.

(** The booking request for a department and a date. *)
Definition booking_for (name department day_str : string) : AppointmentCreate.t :=
  {| AppointmentCreate.patient_name := name;
     AppointmentCreate.phone := "555-0100";
     AppointmentCreate.email := None;
     AppointmentCreate.department := department;
     AppointmentCreate.date := day_str;
     AppointmentCreate.time_slot := None |}.

(** The eight characters of a date with its two dashes put back. *)
Definition dashed (s : string) : string :=
  match s with
  | String a (String b (String c (String d (String e (String f (String g (String h
      EmptyString))))))) =>
      String a (String b (String c (String d (String "-"
        (String e (String f (String "-" (String g (String h EmptyString)))))))))
  | _ => s
  end.

(** * Properties *)

(** ** The built-ins on concrete values *)

Example upper_slice_Cardiology : Py.upper (Py.slice_to 3 "Cardiology") = "CAR".
Proof. reflexivity. Qed.

Example format_03d_examples :
  Py.format_0d 3 1 = "001" /\ Py.format_0d 3 25 = "025" /\
  Py.format_0d 3 1234 = "1234" /\ Py.format_0d 3 (-5) = "-05".
Proof. repeat split. Qed.

Example round_examples :
  Py.round (Py.mul_int (Py.truediv 7 25) 100) = Some 28 /\
  Py.round (Py.truediv 1 2) = Some 0 /\
  Py.round (Py.truediv 3 2) = Some 2 /\
  Py.round (Py.truediv 5 2) = Some 2 /\
  Py.round (Py.truediv (-7) 2) = Some (-4).
Proof. vm_compute. repeat split. Qed.

Example strftime_example :
  option_map Py.strftime_ymd (Py.mk_date 2023 2 28) = Some "2023-02-28" /\
  Py.mk_date 2023 2 29 = None /\
  option_map Py.strftime_ymd (Py.mk_date 2024 2 29) = Some "2024-02-29".
Proof. vm_compute. repeat split. Qed.

(** ** The store and the monad *)

Lemma in_DEPARTMENTS_In (x : string) : in_DEPARTMENTS x = true <-> In x DEPARTMENTS.
Proof.
  unfold in_DEPARTMENTS. rewrite existsb_exists. split.
  - intros [y [Hy Heq]]. apply String.eqb_eq in Heq. now subst.
  - intros H. exists x. split; [assumption | apply String.eqb_refl].
Qed.

Lemma matches_slot (department day_str : string) (d : Doc.t) :
  matches [("department", department); ("date", day_str)] d = same_slot department day_str d.
Proof.
  unfold matches, same_slot. cbn. now rewrite andb_true_r.
Qed.

Lemma filter_ext_slot (department day_str : string) (c : Collection) :
  filter (matches [("department", department); ("date", day_str)]) c
  = filter (same_slot department day_str) c.
Proof.
  apply filter_ext. intros d. apply matches_slot.
Qed.

Lemma count_booked_for_occupancy (department day_str : string) (db : Db) :
  count_booked_for department day_str db = occupancy department day_str db.
Proof.
  destruct db as [c|]; [|reflexivity].
  unfold count_booked_for, occupancy, aggregate_match_count.
  rewrite filter_ext_slot.
  destruct (filter (same_slot department day_str) c); reflexivity.
Qed.

Lemma occupancy_nonneg (department day_str : string) (db : Db) :
  0 <= occupancy department day_str db.
Proof. destruct db; unfold occupancy; lia. Qed.

Lemma occupancy_app (department day_str : string) (c : Collection) (d : Doc.t) :
  occupancy department day_str (Some (c ++ [d])%list)
  = occupancy department day_str (Some c)
    + (if same_slot department day_str d then 1 else 0).
Proof.
  unfold occupancy. rewrite filter_app, length_app. cbn.
  destruct (same_slot department day_str d); cbn; lia.
Qed.

Lemma same_slot_refl (d : Doc.t) : same_slot (Doc.department d) (Doc.date d) d = true.
Proof. unfold same_slot. now rewrite !String.eqb_refl. Qed.

Lemma bind_Ok {A B} (m : M A) (k : A -> M B) (db db' : Db) (a : A) :
  m db = (Ok a, db') -> bind m k db = k a db'.
Proof. intros H. unfold bind. now rewrite H. Qed.

Lemma bind_Raise {A B} (m : M A) (k : A -> M B) (db db' : Db) (e : Exn) :
  m db = (Raise e, db') -> bind m k db = (Raise e, db').
Proof. intros H. unfold bind. now rewrite H. Qed.

Lemma guard_true {B} (e : Exn) (k : unit -> M B) (db : Db) :
  bind (guard true e) k db = k tt db.
Proof. reflexivity. Qed.

Lemma guard_false {B} (e : Exn) (k : unit -> M B) (db : Db) :
  bind (guard false e) k db = (Raise e, db).
Proof. reflexivity. Qed.

Lemma reads_bind {A B} (f : Db -> A) (k : A -> M B) (db : Db) :
  bind (reads f) k db = k (f db) db.
Proof. reflexivity. Qed.

(** ** Decimal numerals *)

Lemma holds_from_sound (p : Z -> bool) (fuel : nat) (n : Z) :
  holds_from p fuel n = true ->
  forall k, n <= k < n + Z.of_nat fuel -> p k = true.
Proof.
  revert n. induction fuel as [|f IH]; intros n H k Hk.
  - cbn in Hk. lia.
  - cbn [holds_from] in H. apply andb_true_iff in H as [Hn Hrest].
    destruct (Z.eq_dec k n) as [->|Hne]; [assumption|].
    apply (IH (n + 1) Hrest). lia.
Qed.

Lemma holds_from_range (p : Z -> bool) (len n : Z) :
  holds_from p (Z.to_nat len) n = true ->
  forall k, n <= k < n + len -> p k = true.
Proof.
  intros H k Hk. apply (holds_from_sound p (Z.to_nat len) n H). lia.
Qed.

Lemma format_03d_three_digits (k : Z) :
  0 <= k <= 999 -> Py.format_0d 3 k = three_digits k.
Proof.
  intros Hk.
  assert (H : holds_from (fun k => String.eqb (Py.format_0d 3 k) (three_digits k)) (Z.to_nat 1000) 0 = true)
    by (vm_compute; reflexivity).
  apply String.eqb_eq. apply (holds_from_range _ _ _ H). lia.
Qed.

Lemma format_02d_two_digits (k : Z) :
  0 <= k <= 99 -> Py.format_0d 2 k = two_digits k.
Proof.
  intros Hk.
  assert (H : holds_from (fun k => String.eqb (Py.format_0d 2 k) (two_digits k)) (Z.to_nat 100) 0 = true)
    by (vm_compute; reflexivity).
  apply String.eqb_eq. apply (holds_from_range _ _ _ H). lia.
Qed.

Lemma format_04d_four_digits (k : Z) :
  0 <= k <= 9999 -> Py.format_0d 4 k = four_digits k.
Proof.
  intros Hk.
  assert (H : holds_from (fun k => String.eqb (Py.format_0d 4 k) (four_digits k)) (Z.to_nat 10000) 0 = true)
    by (vm_compute; reflexivity).
  apply String.eqb_eq. apply (holds_from_range _ _ _ H). lia.
Qed.

(** ** Booking *)

Lemma string_app_assoc (a b c : string) : ((a ++ b) ++ c)%string = (a ++ b ++ c)%string.
Proof. induction a as [|x a IH]; cbn; [reflexivity | now rewrite IH]. Qed.

(** The four outcomes of [create_appointment], in the order of its checks. *)
Lemma create_appointment_eq (payload : AppointmentCreate.t) (db : Db) :
  create_appointment payload db =
    if negb (in_DEPARTMENTS (AppointmentCreate.department payload)) then
      (Raise InvalidDepartment, db)
    else if DEPARTMENT_CAPACITY <=?
              occupancy (AppointmentCreate.department payload)
                (AppointmentCreate.date payload) db then
      (Raise CapacityExceeded, db)
    else if negb (andb (2 <=? Py.len (AppointmentCreate.patient_name payload))
                    (Appointment.date_ok (AppointmentCreate.date payload))) then
      (Raise (ValidationError "Appointment"), db)
    else
      match db with
      | None => (Raise StoreError, None)
      | Some c =>
          (Ok {| Booking.id := fresh_id c;
                 Booking.booking_code := next_booking_code payload db;
                 Booking.status := "booked" |},
           Some (c ++ [booked_doc (fresh_id c) (next_booking_code payload db) payload])%list)
      end.
Proof.
  unfold create_appointment.
  destruct (in_DEPARTMENTS (AppointmentCreate.department payload)) eqn:Hdep; cbn [negb].
  2: reflexivity.
  rewrite guard_true, reads_bind, count_booked_for_occupancy.
  rewrite Z.geb_leb.
  destruct (DEPARTMENT_CAPACITY <=? _) eqn:Hcap; cbn [negb].
  1: reflexivity.
  rewrite guard_true.
  unfold Appointment.valid. cbn [Appointment.patient_name Appointment.department
    Appointment.date Appointment.status].
  rewrite Hdep. cbn [andb Appointment.status_ok String.eqb orb].
  replace (Appointment.status_ok "booked") with true by reflexivity.
  rewrite !andb_true_r.
  destruct (andb _ _) eqn:Hval; cbn [negb].
  2: reflexivity.
  rewrite guard_true.
  unfold next_booking_code. rewrite string_app_assoc.
  destruct db as [c|]; reflexivity.
Qed.

Lemma create_appointment_full (payload : AppointmentCreate.t) (db : Db) :
  In (AppointmentCreate.department payload) DEPARTMENTS ->
  DEPARTMENT_CAPACITY <=
    occupancy (AppointmentCreate.department payload) (AppointmentCreate.date payload) db ->
  create_appointment payload db = (Raise CapacityExceeded, db).
Proof.
  intros Hin Hfull. rewrite create_appointment_eq.
  apply in_DEPARTMENTS_In in Hin. rewrite Hin. cbn [negb].
  apply Z.leb_le in Hfull. now rewrite Hfull.
Qed.

Lemma create_appointment_free (payload : AppointmentCreate.t) (c : Collection) :
  In (AppointmentCreate.department payload) DEPARTMENTS ->
  occupancy (AppointmentCreate.department payload) (AppointmentCreate.date payload) (Some c)
    < DEPARTMENT_CAPACITY ->
  well_formed payload ->
  create_appointment payload (Some c) =
    (Ok {| Booking.id := fresh_id c;
           Booking.booking_code := next_booking_code payload (Some c);
           Booking.status := "booked" |},
     Some (c ++ [booked_doc (fresh_id c) (next_booking_code payload (Some c)) payload])%list).
Proof.
  intros Hin Hfree [Hname Hdate]. rewrite create_appointment_eq.
  apply in_DEPARTMENTS_In in Hin. rewrite Hin. cbn [negb].
  apply Z.leb_gt in Hfree. rewrite Hfree.
  apply Z.leb_le in Hname. rewrite Hname, Hdate. reflexivity.
Qed.

(** C1.  For a department of the registry and any date string, a booking
    is refused with [CapacityExceeded], nothing being persisted, as soon as
    the slot holds 25 appointments or more; below 25 a well-formed booking
    succeeds, persists exactly one more appointment of the slot, and when
    it was the 25th the next one is refused. *)
Theorem create_appointment_capacity (payload : AppointmentCreate.t) (c : Collection) :
  In (AppointmentCreate.department payload) DEPARTMENTS ->
  DEPARTMENT_CAPACITY = 25 /\
  (DEPARTMENT_CAPACITY <=
     occupancy (AppointmentCreate.department payload) (AppointmentCreate.date payload) (Some c) ->
   create_appointment payload (Some c) = (Raise CapacityExceeded, Some c)) /\
  (occupancy (AppointmentCreate.department payload) (AppointmentCreate.date payload) (Some c)
     < DEPARTMENT_CAPACITY ->
   well_formed payload ->
   exists r d,
     create_appointment payload (Some c) = (Ok r, Some (c ++ [d])%list) /\
     Booking.status r = "booked" /\
     occupancy (AppointmentCreate.department payload) (AppointmentCreate.date payload)
       (Some (c ++ [d])%list)
     = occupancy (AppointmentCreate.department payload) (AppointmentCreate.date payload)
         (Some c) + 1 /\
     (occupancy (AppointmentCreate.department payload) (AppointmentCreate.date payload)
        (Some c) = DEPARTMENT_CAPACITY - 1 ->
      create_appointment payload (Some (c ++ [d])%list)
      = (Raise CapacityExceeded, Some (c ++ [d])%list))).
Proof.
  intros Hin. split; [reflexivity|]. split.
  - intros Hfull. now apply create_appointment_full.
  - intros Hfree Hwf.
    eexists. eexists. split; [now apply create_appointment_free|].
    split; [reflexivity|].
    assert (Hocc : forall code oid,
      occupancy (AppointmentCreate.department payload) (AppointmentCreate.date payload)
        (Some (c ++ [booked_doc oid code payload])%list)
      = occupancy (AppointmentCreate.department payload) (AppointmentCreate.date payload)
          (Some c) + 1).
    { intros code oid. rewrite occupancy_app.
      pose proof (same_slot_refl (booked_doc oid code payload)) as Hslot.
      cbn [booked_doc Doc.department Doc.date] in Hslot. now rewrite Hslot. }
    split; [apply Hocc|].
    intros Hlast. apply create_appointment_full; [assumption|].
    rewrite Hocc. lia.
Qed.

Lemma create_appointment_capacity_witness :
  exists c r d,
    store_with 24 "Cardiology" "2024-05-01" = Some c /\
    create_appointment (sample_booking "Cardiology" "2024-05-01") (Some c)
    = (Ok r, Some (c ++ [d])%list) /\
    create_appointment (sample_booking "Cardiology" "2024-05-01") (Some (c ++ [d])%list)
    = (Raise CapacityExceeded, Some (c ++ [d])%list).
Proof.
  destruct (store_with 24 "Cardiology" "2024-05-01") as [c|] eqn:Hc;
    [|vm_compute in Hc; discriminate].
  assert (Hin : In (AppointmentCreate.department (sample_booking "Cardiology" "2024-05-01"))
                  DEPARTMENTS) by (cbn; auto).
  destruct (create_appointment_capacity (sample_booking "Cardiology" "2024-05-01") c Hin)
    as (_ & _ & Hfree).
  assert (Hocc : occupancy "Cardiology" "2024-05-01" (Some c) = 24).
  { rewrite <- Hc. vm_compute. reflexivity. }
  destruct Hfree as (r & d & Hok & _ & _ & Hnext).
  - cbn [sample_booking AppointmentCreate.department AppointmentCreate.date].
    rewrite Hocc. reflexivity.
  - split; vm_compute; [discriminate | reflexivity].
  - exists c, r, d. split; [reflexivity|]. split; [exact Hok|].
    apply Hnext. cbn [sample_booking AppointmentCreate.department AppointmentCreate.date].
    rewrite Hocc. reflexivity.
Defined.

(** The whole day from an empty store: twenty-five bookings are accepted
    and the twenty-sixth is refused. *)
Example twenty_five_then_full :
  occupancy "Cardiology" "2024-05-01" (store_with 25 "Cardiology" "2024-05-01") = 25 /\
  store_with 26 "Cardiology" "2024-05-01" = store_with 25 "Cardiology" "2024-05-01" /\
  fst (create_appointment (sample_booking "Cardiology" "2024-05-01")
         (store_with 25 "Cardiology" "2024-05-01")) = Raise CapacityExceeded /\
  fst (create_appointment (sample_booking "Cardiology" "2024-05-01")
         (store_with 24 "Cardiology" "2024-05-01"))
  = Ok {| Booking.id := 25%nat; Booking.booking_code := "CAR20240501-025";
          Booking.status := "booked" |}.
Proof. vm_compute. repeat split. Qed.

(** *** The booking code *)

Lemma is_digit_not_dash (ch : ascii) :
  Py.is_digit ch = true -> Ascii.eqb ch "-" = false.
Proof.
  destruct ch as [[] [] [] [] [] [] [] []]; vm_compute; congruence.
Qed.

Lemma full_match_cons (t : Appointment.token) (ts : list Appointment.token)
    (ch : ascii) (s : string) :
  Appointment.full_match (t :: ts) (String ch s)
  = andb (Appointment.token_matches t ch) (Appointment.full_match ts s).
Proof. reflexivity. Qed.

(** A string accepted by the pattern is [YYYY-MM-DD], and dropping its
    dashes leaves the eight digits. *)
Lemma date_ok_shape (s : string) :
  Appointment.date_ok s = true ->
  exists y m d,
    s = y ++ "-" ++ m ++ "-" ++ d /\
    String.length y = 4%nat /\ String.length m = 2%nat /\ String.length d = 2%nat /\
    Py.remove_char "-" s = y ++ m ++ d.
Proof.
  unfold Appointment.date_ok, Appointment.date_pattern.
  intros H.
  repeat match type of H with
  | Appointment.full_match (_ :: _) ?t = true =>
      destruct t as [|? ?]; [discriminate H|];
      rewrite full_match_cons in H; apply andb_true_iff in H; destruct H as [? H]
  end.
  match type of H with
  | Appointment.full_match [] ?t = true => destruct t; [|discriminate H]
  end.
  cbn [Appointment.token_matches] in *.
  repeat match goal with
  | E : Ascii.eqb _ "-" = true |- _ => apply Ascii.eqb_eq in E; subst
  end.
  eexists (String _ (String _ (String _ (String _ "")))).
  eexists (String _ (String _ "")).
  eexists (String _ (String _ "")).
  split; [reflexivity|]. repeat (split; [reflexivity|]).
  cbn [Py.remove_char].
  repeat match goal with
  | E : Py.is_digit ?a = true |- _ => rewrite (is_digit_not_dash a E); clear E
  end.
  reflexivity.
Qed.

Lemma registry_prefixes (department : string) :
  In department DEPARTMENTS ->
  In (Py.upper (Py.slice_to 3 department)) ["GEN"; "CAR"; "PED"; "RAD"; "ORT"].
Proof.
  unfold DEPARTMENTS. cbn [In].
  intros [<-|[<-|[<-|[<-|[<-|[]]]]]]; cbn; auto 6.
Qed.

(** C2.  The code returned by a successful booking is the upper-cased
    first three characters of the department, the eight digits of the date
    (its dashes removed), a dash, and the number of appointments already
    persisted for the slot plus one, written on exactly three digits. *)
Theorem booking_code_format (payload : AppointmentCreate.t) (c : Collection)
    (r : Booking.t) (db' : Db) :
  create_appointment payload (Some c) = (Ok r, db') ->
  exists y m d,
    AppointmentCreate.date payload = y ++ "-" ++ m ++ "-" ++ d /\
    String.length y = 4%nat /\ String.length m = 2%nat /\ String.length d = 2%nat /\
    Py.remove_char "-" (AppointmentCreate.date payload) = y ++ m ++ d /\
    In (Py.upper (Py.slice_to 3 (AppointmentCreate.department payload)))
      ["GEN"; "CAR"; "PED"; "RAD"; "ORT"] /\
    0 <= occupancy (AppointmentCreate.department payload) (AppointmentCreate.date payload)
           (Some c) < 25 /\
    Booking.booking_code r =
      Py.upper (Py.slice_to 3 (AppointmentCreate.department payload))
      ++ (y ++ m ++ d) ++ "-"
      ++ three_digits
           (occupancy (AppointmentCreate.department payload)
              (AppointmentCreate.date payload) (Some c) + 1).
Proof.
  intros H. rewrite create_appointment_eq in H.
  destruct (in_DEPARTMENTS _) eqn:Hdep; cbn [negb] in H; [|discriminate].
  destruct (DEPARTMENT_CAPACITY <=? _) eqn:Hcap; [discriminate|].
  destruct (andb _ _) eqn:Hval; cbn [negb] in H; [|discriminate].
  apply andb_true_iff in Hval as [_ Hdate].
  apply Z.leb_gt in Hcap. unfold DEPARTMENT_CAPACITY in Hcap.
  pose proof (occupancy_nonneg (AppointmentCreate.department payload)
                (AppointmentCreate.date payload) (Some c)) as Hnn.
  destruct (date_ok_shape _ Hdate) as (y & m & d & Hs & Hy & Hm & Hd & Hrm).
  exists y, m, d. repeat (split; [assumption|]).
  split; [apply registry_prefixes; now apply in_DEPARTMENTS_In|].
  split; [lia|].
  injection H as <- _. cbn [Booking.booking_code]. unfold next_booking_code.
  rewrite Hrm, format_03d_three_digits by lia. reflexivity.
Qed.

Lemma booking_code_format_witness :
  exists r db',
    create_appointment (sample_booking "Cardiology" "2024-05-01") (Some []) = (Ok r, db') /\
    Booking.booking_code r = "CAR20240501-001".
Proof.
  destruct (create_appointment (sample_booking "Cardiology" "2024-05-01") (Some []))
    as [[r|e] db'] eqn:H; [|vm_compute in H; discriminate].
  exists r, db'. split; [reflexivity|].
  destruct (booking_code_format _ _ _ _ H)
    as (y & m & d & _ & _ & _ & _ & Hrm & _ & _ & Hcode).
  rewrite Hcode, <- Hrm. vm_compute. reflexivity.
Defined.

(** The first two bookings of Cardiology on 2024-05-01. *)
Example first_and_second_code :
  fst (create_appointment (sample_booking "Cardiology" "2024-05-01")
         (store_with 0 "Cardiology" "2024-05-01"))
  = Ok {| Booking.id := 1%nat; Booking.booking_code := "CAR20240501-001";
          Booking.status := "booked" |} /\
  fst (create_appointment (sample_booking "Cardiology" "2024-05-01")
         (store_with 1 "Cardiology" "2024-05-01"))
  = Ok {| Booking.id := 2%nat; Booking.booking_code := "CAR20240501-002";
          Booking.status := "booked" |}.
Proof. vm_compute. split; reflexivity. Qed.

(** *** The shape of the date *)

(** C7.  A booking whose date is not matched by the pattern always fails
    and leaves the store as it was; the refusal comes from the model, after
    the registry and capacity checks have run on the malformed string.  A
    date matched by the pattern is not examined any further: with a
    registered department, a free slot and a name of two characters the
    booking is persisted with the date as given. *)
Theorem create_appointment_date_shape (payload : AppointmentCreate.t) (db : Db) :
  (Appointment.date_ok (AppointmentCreate.date payload) = false ->
   exists e,
     create_appointment payload db = (Raise e, db) /\
     (In (AppointmentCreate.department payload) DEPARTMENTS ->
      e = if DEPARTMENT_CAPACITY <=?
               occupancy (AppointmentCreate.department payload)
                 (AppointmentCreate.date payload) db
          then CapacityExceeded else ValidationError "Appointment")) /\
  (Appointment.date_ok (AppointmentCreate.date payload) = true ->
   In (AppointmentCreate.department payload) DEPARTMENTS ->
   2 <= Py.len (AppointmentCreate.patient_name payload) ->
   occupancy (AppointmentCreate.department payload) (AppointmentCreate.date payload) db
     < DEPARTMENT_CAPACITY ->
   forall c, db = Some c ->
   exists r d,
     create_appointment payload db = (Ok r, Some (c ++ [d])%list) /\
     Doc.date d = AppointmentCreate.date payload /\
     Doc.status d = "booked").
Proof.
  split.
  - intros Hbad. rewrite create_appointment_eq, Hbad, andb_false_r. cbn [negb].
    destruct (in_DEPARTMENTS _) eqn:Hdep; cbn [negb].
    + destruct (DEPARTMENT_CAPACITY <=? _) eqn:Hcap.
      * exists CapacityExceeded. split; [reflexivity|]. intros _. reflexivity.
      * exists (ValidationError "Appointment"). split; [reflexivity|]. intros _. reflexivity.
    + exists InvalidDepartment. split; [reflexivity|].
      intros Hin. apply in_DEPARTMENTS_In in Hin. congruence.
  - intros Hok Hin Hname Hfree c ->.
    eexists. eexists. split.
    + apply create_appointment_free; [assumption | assumption | now split].
    + split; reflexivity.
Qed.

Lemma create_appointment_date_shape_witness :
  (exists e,
     create_appointment (sample_booking "General" "2024-5-1") (Some []) = (Raise e, Some []) /\
     e = ValidationError "Appointment") /\
  (exists r d,
     create_appointment (sample_booking "General" "2024-02-31") (Some [])
     = (Ok r, Some [d]) /\
     Doc.date d = "2024-02-31") /\
  Py.mk_date 2024 2 31 = None.
Proof.
  assert (Hin : forall day_str,
             In (AppointmentCreate.department (sample_booking "General" day_str)) DEPARTMENTS)
    by (intros; cbn; auto).
  split; [|split; [|reflexivity]].
  - destruct (create_appointment_date_shape (sample_booking "General" "2024-5-1") (Some []))
      as [Hbad _].
    destruct (Hbad eq_refl) as (e & Hrun & He).
    exists e. split; [exact Hrun | exact (He (Hin _))].
  - destruct (create_appointment_date_shape (sample_booking "General" "2024-02-31") (Some []))
      as [_ Hgood].
    destruct (Hgood eq_refl (Hin _)) with (c := @nil Doc.t) as (r & d & Hrun & Hd & _).
    + vm_compute. discriminate.
    + vm_compute. reflexivity.
    + reflexivity.
    + exists r, d. split; [exact Hrun | exact Hd].
Defined.

(** Dates the pattern accepts and refuses. *)
Example date_ok_examples :
  Appointment.date_ok "2024-05-01" = true /\
  Appointment.date_ok "2024-02-31" = true /\
  Appointment.date_ok "0000-00-00" = true /\
  Appointment.date_ok "2024-5-1" = false /\
  Appointment.date_ok "2024-05-011" = false /\
  Appointment.date_ok "2024/05/01" = false /\
  Appointment.date_ok "" = false.
Proof. vm_compute. repeat split. Qed.

(** ** Check-in *)

Lemma matches_code (code : string) (d : Doc.t) :
  matches [("booking_code", code)] d = by_code code d.
Proof. unfold matches, by_code. cbn. now rewrite andb_true_r. Qed.

Lemma matches_fields (name phone department day_str : string) (d : Doc.t) :
  matches [("patient_name", name); ("phone", phone);
           ("department", department); ("date", day_str)] d
  = by_fields name phone department day_str d.
Proof. unfold matches, by_fields. cbn. now rewrite andb_true_r. Qed.

Lemma find_ext {A} (f g : A -> bool) (l : list A) :
  (forall x, f x = g x) -> find f l = find g l.
Proof.
  intros H. induction l as [|x l IH]; cbn; [reflexivity|].
  now rewrite H, IH.
Qed.

(** [check_in] on an available store: the filter, then the settlement. *)
Lemma check_in_with_query (utcnow : datetime) (payload : CheckInRequest.t)
    (c : Collection) (q : Query) :
  check_in_query payload (Some c) = (Ok q, Some c) ->
  check_in utcnow payload (Some c) = settle utcnow (find_one q c) c.
Proof.
  intros Hq. unfold check_in.
  unfold db_is_None. rewrite reads_bind. cbn [negb]. rewrite guard_true.
  rewrite (bind_Ok _ _ _ _ _ Hq).
  unfold db_find_one. rewrite reads_bind. unfold settle.
  destruct (find_one q c) as [appt|]; [|reflexivity].
  destruct (String.eqb (Doc.status appt) "checked_in"); reflexivity.
Qed.

Lemma check_in_no_query (utcnow : datetime) (payload : CheckInRequest.t)
    (c : Collection) (e : Exn) :
  check_in_query payload (Some c) = (Raise e, Some c) ->
  check_in utcnow payload (Some c) = (Raise e, Some c).
Proof.
  intros Hq. unfold check_in.
  unfold db_is_None. rewrite reads_bind. cbn [negb]. rewrite guard_true.
  now rewrite (bind_Raise _ _ _ _ _ Hq).
Qed.

Lemma check_in_unavailable (utcnow : datetime) (payload : CheckInRequest.t) :
  check_in utcnow payload None = (Raise DatabaseNotAvailable, None).
Proof. reflexivity. Qed.

Lemma truthy_opt_true (o : option string) :
  Py.truthy_opt o = true <-> exists s, o = Some s /\ s <> "".
Proof.
  destruct o as [[|a s]|]; cbn; split; try discriminate.
  - intros (s & [= <-] & Hs). congruence.
  - intros _. eexists. split; [reflexivity | discriminate].
  - intros _. reflexivity.
  - intros (s & [=] & _).
Qed.

Lemma truthy_opt_false (o : option string) :
  Py.truthy_opt o = false <-> blank o.
Proof.
  unfold blank. destruct o as [[|a s]|]; cbn; split; auto; try discriminate.
  intros [[=]|[=]].
Qed.

Lemma check_in_by_code (utcnow : datetime) (payload : CheckInRequest.t)
    (c : Collection) (code : string) :
  CheckInRequest.booking_code payload = Some code -> code <> "" ->
  check_in utcnow payload (Some c) = settle utcnow (find (by_code code) c) c.
Proof.
  intros Hcode Hne.
  rewrite (check_in_with_query utcnow payload c [("booking_code", code)]).
  - unfold find_one. f_equal. apply find_ext. apply matches_code.
  - unfold check_in_query. rewrite Hcode.
    destruct code as [|a s]; [congruence | reflexivity].
Qed.

Lemma check_in_by_fields (utcnow : datetime) (payload : CheckInRequest.t)
    (c : Collection) (name phone department day_str : string) :
  blank (CheckInRequest.booking_code payload) ->
  CheckInRequest.patient_name payload = Some name -> name <> "" ->
  CheckInRequest.phone payload = Some phone -> phone <> "" ->
  CheckInRequest.department payload = Some department -> department <> "" ->
  CheckInRequest.date payload = Some day_str -> day_str <> "" ->
  check_in utcnow payload (Some c)
  = settle utcnow (find (by_fields name phone department day_str) c) c.
Proof.
  intros Hcode Hn Hn' Hp Hp' Hd Hd' Ht Ht'.
  rewrite (check_in_with_query utcnow payload c
             [("patient_name", name); ("phone", phone);
              ("department", department); ("date", day_str)]).
  - unfold find_one. f_equal. apply find_ext. apply matches_fields.
  - unfold check_in_query. apply truthy_opt_false in Hcode. rewrite Hcode.
    rewrite Hn, Hp, Hd, Ht.
    destruct name; [congruence|]. destruct phone; [congruence|].
    destruct department; [congruence|]. destruct day_str; [congruence|].
    reflexivity.
Qed.

Lemma check_in_missing (utcnow : datetime) (payload : CheckInRequest.t) (c : Collection) :
  blank (CheckInRequest.booking_code payload) ->
  blank (CheckInRequest.patient_name payload) \/ blank (CheckInRequest.phone payload) \/
  blank (CheckInRequest.department payload) \/ blank (CheckInRequest.date payload) ->
  check_in utcnow payload (Some c) = (Raise MissingCheckInFields, Some c).
Proof.
  intros Hcode Hany. apply check_in_no_query.
  unfold check_in_query. apply truthy_opt_false in Hcode. rewrite Hcode.
  assert (Hall : Py.all [CheckInRequest.patient_name payload; CheckInRequest.phone payload;
                         CheckInRequest.department payload; CheckInRequest.date payload]
                 = false).
  { unfold Py.all. cbn [forallb].
    destruct Hany as [H|[H|[H|H]]]; apply truthy_opt_false in H; rewrite H;
      rewrite ?andb_false_r; reflexivity. }
  rewrite Hall. reflexivity.
Qed.

(** A refused check-in leaves the store as it was. *)
Lemma check_in_failure_keeps_store (utcnow : datetime) (payload : CheckInRequest.t)
    (db db' : Db) (e : Exn) :
  check_in utcnow payload db = (Raise e, db') -> db' = db.
Proof.
  destruct db as [c|]; [|now intros [= _ <-]].
  destruct (check_in_query payload (Some c)) as [[q|e'] db1] eqn:Hq.
  - assert (db1 = Some c) as ->.
    { unfold check_in_query in Hq. destruct (Py.truthy_opt _); [now inversion Hq|].
      destruct (Py.all _); now inversion Hq. }
    rewrite (check_in_with_query _ _ _ _ Hq). unfold settle.
    destruct (find_one q c); [discriminate | now intros [= _ <-]].
  - assert (db1 = Some c) as ->.
    { unfold check_in_query in Hq. destruct (Py.truthy_opt _); [now inversion Hq|].
      destruct (Py.all _); now inversion Hq. }
    rewrite (check_in_no_query _ _ _ _ Hq). now intros [= _ <-].
Qed.

(** *** Idempotence *)

Lemma find_Some_In {A} (f : A -> bool) (l : list A) (x : A) :
  find f l = Some x -> In x l /\ f x = true.
Proof. apply find_some. Qed.

(** With unique identifiers, updating the first match of a filter that the
    update does not disturb leaves the updated document as the first match. *)
Lemma find_update_one (f : Doc.t -> bool) (g : Doc.t -> Doc.t) (c : Collection)
    (appt : Doc.t) :
  NoDup (map Doc._id c) ->
  (forall d, f (g d) = f d) ->
  find f c = Some appt ->
  find f (update_one (Doc._id appt) g c) = Some (g appt).
Proof.
  intros Hnd Hfg. induction c as [|d c IH]; cbn [find update_one]; [discriminate|].
  inversion Hnd as [|? ? Hnotin Hnd']; subst.
  destruct (f d) eqn:Hfd.
  - intros [= ->]. rewrite Nat.eqb_refl. cbn [find]. now rewrite Hfg, Hfd.
  - intros Hfind. destruct (Nat.eqb (Doc._id d) (Doc._id appt)) eqn:Hid.
    + apply Nat.eqb_eq in Hid. exfalso. apply Hnotin. rewrite Hid.
      apply in_map. now apply find_Some_In in Hfind.
    + cbn [find]. rewrite Hfd. now apply IH.
Qed.

Lemma update_one_ids (oid : ObjectId) (g : Doc.t -> Doc.t) (c : Collection) :
  (forall d, Doc._id (g d) = Doc._id d) ->
  map Doc._id (update_one oid g c) = map Doc._id c.
Proof.
  intros Hg. induction c as [|d c IH]; cbn [update_one map]; [reflexivity|].
  destruct (Nat.eqb (Doc._id d) oid); cbn [map]; [now rewrite Hg | now rewrite IH].
Qed.

Lemma update_one_In (oid : ObjectId) (g : Doc.t -> Doc.t) (c : Collection) (appt : Doc.t) :
  In appt c -> Doc._id appt = oid -> NoDup (map Doc._id c) ->
  In (g appt) (update_one oid g c).
Proof.
  intros Hin Hid Hnd. induction c as [|d c IH]; [contradiction|].
  inversion Hnd as [|? ? Hnotin Hnd']; subst. cbn [update_one].
  destruct Hin as [->|Hin].
  - rewrite Nat.eqb_refl. now left.
  - destruct (Nat.eqb (Doc._id d) (Doc._id appt)) eqn:Hd.
    + apply Nat.eqb_eq in Hd. exfalso. apply Hnotin. rewrite Hd. now apply in_map.
    + right. now apply IH.
Qed.

Lemma check_in_query_keeps_store (payload : CheckInRequest.t) (db db1 : Db)
    (res : Result Query) :
  check_in_query payload db = (res, db1) -> db1 = db.
Proof.
  unfold check_in_query.
  destruct (Py.truthy_opt _); [now intros [= _ <-]|].
  destruct (Py.all _); now intros [= _ <-].
Qed.

(** The filters of [check_in] do not look at what the update changes. *)
Lemma check_in_query_stable (payload : CheckInRequest.t) (db db1 : Db) (q : Query) :
  check_in_query payload db = (Ok q, db1) ->
  db1 = db /\ forall s ts d, matches q (Doc.set_checked_in s ts d) = matches q d.
Proof.
  unfold check_in_query.
  destruct (Py.truthy_opt _).
  - intros [= <- <-]. split; reflexivity.
  - destruct (Py.all _); [|discriminate].
    intros [= <- <-]. split; reflexivity.
Qed.

(** C3.  A check-in that succeeded can be repeated: on the store it left
    behind, the same request yields the same response and writes nothing,
    whatever the clock shows.  The appointment it reports is stored as
    checked in, and when the target was checked in already the first call
    itself wrote nothing. *)
Theorem check_in_idempotent (now1 now2 : datetime) (payload : CheckInRequest.t)
    (db db' : Db) (r : CheckIn.t) :
  ids_unique db ->
  check_in now1 payload db = (Ok r, db') ->
  check_in now2 payload db' = (Ok r, db') /\
  CheckIn.status r = "checked_in" /\
  (exists c' appt,
     db' = Some c' /\ In appt c' /\ Doc.status appt = "checked_in" /\
     CheckIn.id r = Doc._id appt /\ CheckIn.booking_code r = Doc.booking_code appt) /\
  (forall c q appt,
     db = Some c -> check_in_query payload db = (Ok q, db) ->
     find_one q c = Some appt -> Doc.status appt = "checked_in" ->
     db' = db).
Proof.
  intros Hwf Hrun.
  destruct db as [c|]; [|discriminate].
  destruct (check_in_query payload (Some c)) as [[q|e] db1] eqn:Hq.
  2: { pose proof (check_in_query_keeps_store _ _ _ _ Hq) as ->.
       rewrite (check_in_no_query _ _ _ _ Hq) in Hrun. discriminate. }
  destruct (check_in_query_stable _ _ _ _ Hq) as [-> Hstable].
  rewrite (check_in_with_query _ _ _ _ Hq) in Hrun. unfold settle in Hrun.
  destruct (find_one q c) as [appt|] eqn:Hfind; [|discriminate].
  destruct (find_Some_In _ _ _ Hfind) as [Hin Hmatch].
  destruct (String.eqb (Doc.status appt) "checked_in") eqn:Hst.
  - (* the target was checked in already *)
    injection Hrun as <- <-.
    split.
    { rewrite (check_in_with_query _ _ _ _ Hq). unfold settle. now rewrite Hfind, Hst. }
    split; [reflexivity|].
    split.
    { exists c, appt. apply String.eqb_eq in Hst. repeat split; assumption. }
    intros; reflexivity.
  - (* the target is marked by the first call *)
    injection Hrun as <- <-.
    set (c' := update_one (Doc._id appt) (Doc.set_checked_in "checked_in" now1) c).
    assert (Hq' : check_in_query payload (Some c') = (Ok q, Some c')).
    { unfold check_in_query in Hq |- *.
      destruct (Py.truthy_opt _); [now inversion Hq|].
      destruct (Py.all _); [now inversion Hq | discriminate]. }
    assert (Hfind' : find_one q c' = Some (Doc.set_checked_in "checked_in" now1 appt)).
    { apply find_update_one; [exact Hwf | apply Hstable | exact Hfind]. }
    split.
    { rewrite (check_in_with_query _ _ _ _ Hq'). unfold settle. rewrite Hfind'.
      reflexivity. }
    split; [reflexivity|].
    split.
    { exists c', (Doc.set_checked_in "checked_in" now1 appt).
      split; [reflexivity|]. split; [|repeat split].
      apply update_one_In; [assumption | reflexivity | exact Hwf]. }
    intros c0 q0 appt0 Hc0 Hq0 Hfind0 Hst0.
    injection Hc0 as Hc0. subst c0.
    assert (q0 = q) as -> by congruence.
    assert (appt0 = appt) as -> by congruence.
    apply String.eqb_neq in Hst. contradiction.
Qed.

Lemma check_in_idempotent_witness :
  exists db r db',
    store_with 2 "Cardiology" "2024-05-01" = db /\
    check_in 1000 (by_code_request "CAR20240501-002") db = (Ok r, db') /\
    db' <> db /\
    check_in 2000 (by_code_request "CAR20240501-002") db' = (Ok r, db').
Proof.
  exists (store_with 2 "Cardiology" "2024-05-01").
  destruct (check_in 1000 (by_code_request "CAR20240501-002")
              (store_with 2 "Cardiology" "2024-05-01")) as [[r|e] db'] eqn:Hrun;
    [|vm_compute in Hrun; discriminate].
  exists r, db'. split; [reflexivity|]. split; [reflexivity|].
  split.
  - vm_compute in Hrun. injection Hrun as _ <-. vm_compute. discriminate.
  - refine (proj1 (check_in_idempotent 1000 2000 _ _ _ _ _ Hrun)).
    vm_compute. repeat constructor; cbn; intuition discriminate.
Defined.

(** *** Resolution of the target *)

Lemma DepartmentName_not_empty (s : string) : In s DepartmentName -> s <> "".
Proof.
  unfold DepartmentName. cbn [In].
  intros [<-|[<-|[<-|[<-|[<-|[]]]]]]; discriminate.
Qed.

Lemma valid_department (body : CheckInRequest.t) (department : string) :
  CheckInRequest_valid body = true ->
  CheckInRequest.department body = Some department ->
  In department DepartmentName.
Proof.
  unfold CheckInRequest_valid. intros Hvalid Hdep. rewrite Hdep in Hvalid.
  apply existsb_exists in Hvalid as (x & Hx & Heq).
  apply String.eqb_eq in Heq. now subst.
Qed.

Lemma valid_department_blank (body : CheckInRequest.t) :
  CheckInRequest_valid body = true ->
  blank (CheckInRequest.department body) -> CheckInRequest.department body = None.
Proof.
  intros Hvalid [H|H]; [assumption|].
  pose proof (valid_department body "" Hvalid H) as Hin.
  now apply DepartmentName_not_empty in Hin.
Qed.

Lemma post_checkin_valid (utcnow : datetime) (body : CheckInRequest.t) (db : Db) :
  CheckInRequest_valid body = true ->
  post_checkin utcnow body db = check_in utcnow body db.
Proof. intros H. unfold post_checkin. now rewrite H, guard_true. Qed.

Lemma post_checkin_invalid (utcnow : datetime) (body : CheckInRequest.t) (db : Db) :
  CheckInRequest_valid body = false ->
  post_checkin utcnow body db = (Raise (RequestValidationError "department"), db).
Proof. intros H. unfold post_checkin. now rewrite H. Qed.

(** C5, as amended.  For a request the [CheckInRequest] model accepts: a
    booking code that is supplied and not empty decides the target alone,
    the first stored appointment carrying it, whatever the other arguments
    are.  Without such a code, the request is refused with
    [MissingCheckInFields] when the department is left out or when one of
    name, phone and date is left out or empty, and otherwise the target is
    the first stored appointment equal to the request on all four.  On both
    paths no target means [AppointmentNotFound], and every refusal leaves the
    store as it was. *)
Theorem check_in_resolution (utcnow : datetime) (payload : CheckInRequest.t)
    (c : Collection) :
  CheckInRequest_valid payload = true ->
  (forall code,
     CheckInRequest.booking_code payload = Some code -> code <> "" ->
     check_in utcnow payload (Some c) = settle utcnow (find (by_code code) c) c /\
     (find (by_code code) c = None ->
      check_in utcnow payload (Some c) = (Raise AppointmentNotFound, Some c))) /\
  (blank (CheckInRequest.booking_code payload) ->
   (blank (CheckInRequest.patient_name payload) \/ blank (CheckInRequest.phone payload) \/
    CheckInRequest.department payload = None \/ blank (CheckInRequest.date payload) ->
    check_in utcnow payload (Some c) = (Raise MissingCheckInFields, Some c)) /\
   (forall name phone department day_str,
      CheckInRequest.patient_name payload = Some name -> name <> "" ->
      CheckInRequest.phone payload = Some phone -> phone <> "" ->
      CheckInRequest.department payload = Some department ->
      CheckInRequest.date payload = Some day_str -> day_str <> "" ->
      check_in utcnow payload (Some c)
      = settle utcnow (find (by_fields name phone department day_str) c) c /\
      (find (by_fields name phone department day_str) c = None ->
       check_in utcnow payload (Some c) = (Raise AppointmentNotFound, Some c)))) /\
  (forall db e db', check_in utcnow payload db = (Raise e, db') -> db' = db) /\
  (forall db, post_checkin utcnow payload db = check_in utcnow payload db).
Proof.
  intros Hvalid. split; [|split; [|split]].
  - intros code Hcode Hne.
    pose proof (check_in_by_code utcnow payload c code Hcode Hne) as H.
    split; [exact H|]. intros Hnone. now rewrite H, Hnone.
  - intros Hblank. split.
    + intros Hany. apply check_in_missing; [assumption|].
      destruct Hany as [H|[H|[H|H]]]; auto.
      right. right. left. left. exact H.
    + intros name phone department day_str Hn Hn' Hp Hp' Hd Ht Ht'.
      pose proof (DepartmentName_not_empty department
                    (valid_department payload department Hvalid Hd)) as Hd'.
      pose proof (check_in_by_fields utcnow payload c name phone department day_str
                    Hblank Hn Hn' Hp Hp' Hd Hd' Ht Ht') as H.
      split; [exact H|]. intros Hnone. now rewrite H, Hnone.
  - intros db e db'. apply check_in_failure_keeps_store.
  - intros db. now apply post_checkin_valid.
Qed.

Lemma check_in_resolution_witness :
  (check_in 1000 (by_fields_request (Some "CAR20240501-001") "Nobody" "0" "General" "1999-01-01")
     (store_with 1 "Cardiology" "2024-05-01")
   = check_in 1000 (by_code_request "CAR20240501-001")
       (store_with 1 "Cardiology" "2024-05-01")) /\
  (exists c, store_with 1 "Cardiology" "2024-05-01" = Some c /\
     check_in 1000 (by_code_request "CAR20240501-009") (Some c)
     = (Raise AppointmentNotFound, Some c) /\
     check_in 1000 (by_fields_request None "Ann Lee" "" "Cardiology" "2024-05-01") (Some c)
     = (Raise MissingCheckInFields, Some c) /\
     fst (check_in 1000 (by_fields_request None "Ann Lee" "555-0100" "Cardiology" "2024-05-01")
            (Some c))
     = Ok {| CheckIn.id := 1%nat; CheckIn.status := "checked_in";
             CheckIn.booking_code := Some "CAR20240501-001" |}).
Proof.
  destruct (store_with 1 "Cardiology" "2024-05-01") as [c|] eqn:Hc;
    [|vm_compute in Hc; discriminate].
  assert (Hne : forall a s, String a s <> "") by discriminate.
  split.
  - destruct (check_in_resolution 1000
                (by_fields_request (Some "CAR20240501-001") "Nobody" "0" "General"
                   "1999-01-01") c eq_refl) as [H1 _].
    destruct (check_in_resolution 1000 (by_code_request "CAR20240501-001") c eq_refl)
      as [H2 _].
    rewrite (proj1 (H1 _ eq_refl (Hne _ _))), (proj1 (H2 _ eq_refl (Hne _ _))).
    reflexivity.
  - exists c. split; [reflexivity|]. split; [|split].
    + destruct (check_in_resolution 1000 (by_code_request "CAR20240501-009") c eq_refl)
        as [H _].
      apply (proj2 (H _ eq_refl (Hne _ _))).
      vm_compute in Hc. injection Hc as <-. reflexivity.
    + destruct (check_in_resolution 1000
                  (by_fields_request None "Ann Lee" "" "Cardiology" "2024-05-01") c eq_refl)
        as (_ & H & _).
      apply (proj1 (H (or_introl eq_refl))). right. left. right. reflexivity.
    + destruct (check_in_resolution 1000
                  (by_fields_request None "Ann Lee" "555-0100" "Cardiology" "2024-05-01")
                  c eq_refl) as (_ & H & _).
      rewrite (proj1 (proj2 (H (or_introl eq_refl)) "Ann Lee" "555-0100" "Cardiology"
                        "2024-05-01" eq_refl (Hne _ _) eq_refl (Hne _ _) eq_refl eq_refl
                        (Hne _ _))).
      vm_compute in Hc. injection Hc as <-. reflexivity.
Defined.

(** C5 as worded fails twice, on requests the model accepts.  With an empty
    booking code the request supplies a code, yet the target is found through
    the four other fields and marked, where a lookup by the code alone finds
    nothing.  With an empty name all four fields are supplied, yet the
    request is refused as incomplete, where a lookup by the four fields would
    report that no appointment matches. *)
Lemma check_in_as_supplied_counterexample :
  ~ resolves_by_supplied_code /\ ~ matches_whenever_supplied.
Proof.
  split; intros H.
  - specialize (H 1000
                  (by_fields_request (Some "") "Ann Lee" "555-0100" "Cardiology" "2024-05-01")
                  [booked_doc 1%nat "CAR20240501-001"
                     (sample_booking "Cardiology" "2024-05-01")]
                  "" eq_refl).
    vm_compute in H. discriminate H.
  - specialize (H 1000
                  (by_fields_request None "" "555-0100" "Cardiology" "2024-05-01")
                  [booked_doc 1%nat "CAR20240501-001"
                     (sample_booking "Cardiology" "2024-05-01")]
                  "" "555-0100" "Cardiology" "2024-05-01"
                  eq_refl eq_refl eq_refl eq_refl eq_refl).
    vm_compute in H. discriminate H.
Qed.

Example empty_code_falls_through :
  store_with 1 "Cardiology" "2024-05-01"
  = Some [booked_doc 1%nat "CAR20240501-001" (sample_booking "Cardiology" "2024-05-01")] /\
  check_in 1000
    (by_fields_request (Some "") "Ann Lee" "555-0100" "Cardiology" "2024-05-01")
    (store_with 1 "Cardiology" "2024-05-01")
  = (Ok {| CheckIn.id := 1%nat; CheckIn.status := "checked_in";
           CheckIn.booking_code := Some "CAR20240501-001" |},
     Some [Doc.set_checked_in "checked_in" 1000
             (booked_doc 1%nat "CAR20240501-001" (sample_booking "Cardiology" "2024-05-01"))]) /\
  check_in 1000 (by_code_request "") (store_with 1 "Cardiology" "2024-05-01")
  = (Raise MissingCheckInFields, store_with 1 "Cardiology" "2024-05-01").
Proof. vm_compute. repeat split. Qed.

(** *** Truthiness *)

(** C10, as amended.  Presence is tested by truthiness.  For a request the
    [CheckInRequest] model accepts, an empty booking code is treated as no
    booking code: the request is answered exactly as if the code had been
    left out, and when its four fields are filled the target is looked up
    through them, found and settled like any other.  Without a usable code, a
    name, phone or date supplied as the empty string counts as missing and
    the request is refused with [MissingCheckInFields].  A department cannot
    be empty: such a body is refused by the model before [check_in] runs. *)
Theorem check_in_truthiness (utcnow : datetime) (body : CheckInRequest.t) (c : Collection) :
  (CheckInRequest.department body = Some "" ->
   post_checkin utcnow body (Some c)
   = (Raise (RequestValidationError "department"), Some c)) /\
  (CheckInRequest_valid body = true ->
   (CheckInRequest.booking_code body = Some "" ->
    post_checkin utcnow body (Some c) = post_checkin utcnow (without_code body) (Some c) /\
    forall name phone department day_str,
      CheckInRequest.patient_name body = Some name -> name <> "" ->
      CheckInRequest.phone body = Some phone -> phone <> "" ->
      CheckInRequest.department body = Some department ->
      CheckInRequest.date body = Some day_str -> day_str <> "" ->
      post_checkin utcnow body (Some c)
      = settle utcnow (find (by_fields name phone department day_str) c) c) /\
   (blank (CheckInRequest.booking_code body) ->
    CheckInRequest.patient_name body = Some "" \/ CheckInRequest.phone body = Some "" \/
    CheckInRequest.date body = Some "" ->
    post_checkin utcnow body (Some c) = (Raise MissingCheckInFields, Some c))).
Proof.
  split.
  - intros Hdep. apply post_checkin_invalid.
    unfold CheckInRequest_valid. now rewrite Hdep.
  - intros Hvalid. split.
    + intros Hempty.
      assert (Hvalid' : CheckInRequest_valid (without_code body) = true) by exact Hvalid.
      rewrite !post_checkin_valid by assumption.
      split.
      * unfold check_in.
        assert (Hq : check_in_query body = check_in_query (without_code body)).
        { unfold check_in_query. rewrite Hempty. reflexivity. }
        now rewrite Hq.
      * intros name phone department day_str Hn Hn' Hp Hp' Hd Ht Ht'.
        apply check_in_by_fields; try assumption.
        -- right. exact Hempty.
        -- apply DepartmentName_not_empty. now apply (valid_department body).
    + intros Hblank Hany. rewrite post_checkin_valid by assumption.
      apply check_in_missing; [assumption|].
      unfold blank. destruct Hany as [H|[H|H]]; auto.
Qed.

Lemma check_in_truthiness_witness :
  post_checkin 1000
    (by_fields_request (Some "") "Ann Lee" "555-0100" "Cardiology" "2024-05-01")
    (Some [booked_doc 1%nat "CAR20240501-001" (sample_booking "Cardiology" "2024-05-01")])
  = (Ok {| CheckIn.id := 1%nat; CheckIn.status := "checked_in";
           CheckIn.booking_code := Some "CAR20240501-001" |},
     Some [Doc.set_checked_in "checked_in" 1000
             (booked_doc 1%nat "CAR20240501-001"
                (sample_booking "Cardiology" "2024-05-01"))]) /\
  post_checkin 1000 (by_fields_request None "Ann Lee" "" "Cardiology" "2024-05-01")
    (Some [booked_doc 1%nat "CAR20240501-001" (sample_booking "Cardiology" "2024-05-01")])
  = (Raise MissingCheckInFields,
     Some [booked_doc 1%nat "CAR20240501-001" (sample_booking "Cardiology" "2024-05-01")]) /\
  post_checkin 1000 (by_fields_request None "Ann Lee" "555-0100" "" "2024-05-01")
    (Some [booked_doc 1%nat "CAR20240501-001" (sample_booking "Cardiology" "2024-05-01")])
  = (Raise (RequestValidationError "department"),
     Some [booked_doc 1%nat "CAR20240501-001" (sample_booking "Cardiology" "2024-05-01")]).
Proof.
  assert (Hne : forall a s, String a s <> "") by discriminate.
  split; [|split].
  - destruct (check_in_truthiness 1000
                (by_fields_request (Some "") "Ann Lee" "555-0100" "Cardiology" "2024-05-01")
                [booked_doc 1%nat "CAR20240501-001"
                   (sample_booking "Cardiology" "2024-05-01")]) as [_ H].
    destruct (H eq_refl) as [Hcode _]. destruct (Hcode eq_refl) as [_ Hfields].
    refine (eq_trans (Hfields "Ann Lee" "555-0100" "Cardiology" "2024-05-01"
                        eq_refl (Hne _ _) eq_refl (Hne _ _) eq_refl eq_refl (Hne _ _)) _).
    reflexivity.
  - destruct (check_in_truthiness 1000
                (by_fields_request None "Ann Lee" "" "Cardiology" "2024-05-01")
                [booked_doc 1%nat "CAR20240501-001"
                   (sample_booking "Cardiology" "2024-05-01")]) as [_ H].
    apply (proj2 (H eq_refl)); [left; reflexivity | right; left; reflexivity].
  - destruct (check_in_truthiness 1000
                (by_fields_request None "Ann Lee" "555-0100" "" "2024-05-01")
                [booked_doc 1%nat "CAR20240501-001"
                   (sample_booking "Cardiology" "2024-05-01")]) as [H _].
    exact (H eq_refl).
Defined.

(** C10 as worded fails on the department: supplied as the empty string it
    is not treated as a missing field, the body is refused by the model. *)
Lemma check_in_empty_department_counterexample : ~ empty_fields_count_as_missing.
Proof.
  intros H.
  specialize (H 1000 (by_fields_request None "Ann Lee" "555-0100" "" "2024-05-01") []
                (or_introl eq_refl) (or_intror (or_intror (or_introl eq_refl)))).
  vm_compute in H. discriminate H.
Qed.

(** ** Patient listing *)

Lemma count_if_acc {A} (p : A -> bool) (xs : list A) (acc : Z) :
  fold_left (fun acc x => if p x then acc + 1 else acc) xs acc
  = acc + Z.of_nat (List.length (filter p xs)).
Proof.
  revert acc. induction xs as [|x xs IH]; intros acc; cbn [fold_left filter].
  - cbn. lia.
  - rewrite IH. destruct (p x); cbn [List.length]; lia.
Qed.

Lemma count_if_filter {A} (p : A -> bool) (xs : list A) :
  count_if p xs = Z.of_nat (List.length (filter p xs)).
Proof. unfold count_if. now rewrite count_if_acc. Qed.

Lemma filter_map_length {A B} (f : A -> B) (p : B -> bool) (xs : list A) :
  List.length (filter p (map f xs)) = List.length (filter (fun x => p (f x)) xs).
Proof.
  induction xs as [|x xs IH]; cbn; [reflexivity|].
  destruct (p (f x)); cbn; now rewrite IH.
Qed.

Lemma filter_partition_length {A} (p : A -> bool) (xs : list A) :
  (List.length (filter p xs) + List.length (filter (fun x => negb (p x)) xs))%nat
  = List.length xs.
Proof.
  induction xs as [|x xs IH]; cbn; [reflexivity|].
  destruct (p x); cbn; lia.
Qed.

Lemma filter_all {A} (p : A -> bool) (xs : list A) :
  (forall x, p x = true) -> filter p xs = xs.
Proof.
  intros H. induction xs as [|x xs IH]; cbn; [reflexivity|]. now rewrite H, IH.
Qed.

Lemma get_documents_selected (date_str : option string) (c : Collection) :
  get_documents (filter_on "date" date_str) (Some c) = (Ok (selected date_str c), Some c).
Proof.
  unfold get_documents, filter_on, selected.
  destruct date_str as [[|a s]|]; cbn [Py.truthy].
  - now rewrite filter_all.
  - f_equal. f_equal. apply filter_ext. intros d.
    unfold matches, on_date. cbn. now rewrite andb_true_r.
  - now rewrite filter_all.
Qed.

(** C9, as amended.  On every store the listing covers the appointments of
    the given date when that date is not empty, and all appointments when it
    is left out or empty.  Its [total] is their number, [checked_in] the
    number of those whose status is [checked_in], [booked] the number of the
    others, so the two add up to [total]; and the listed records are their
    projections, in store order. *)
Theorem patients_tracking_summary (date_str : option string) (c : Collection) :
  exists r,
    patients_tracking date_str (Some c) = (Ok r, Some c) /\
    Patients.patients r = map project (selected date_str c) /\
    Summary.total (Patients.summary r) = Z.of_nat (List.length (selected date_str c)) /\
    Summary.checked_in (Patients.summary r)
    = Z.of_nat (List.length (filter is_checked_in (selected date_str c))) /\
    Summary.booked (Patients.summary r)
    = Z.of_nat (List.length (filter (fun d => negb (is_checked_in d)) (selected date_str c))) /\
    Summary.total (Patients.summary r)
    = Summary.checked_in (Patients.summary r) + Summary.booked (Patients.summary r).
Proof.
  unfold patients_tracking.
  rewrite (bind_Ok _ _ _ _ _ (get_documents_selected date_str c)).
  eexists. split; [reflexivity|].
  cbn [Patients.patients Patients.summary Summary.total Summary.checked_in Summary.booked].
  rewrite !count_if_filter, !filter_map_length, length_map.
  split; [reflexivity|]. split; [reflexivity|].
  split; [reflexivity|]. split; [reflexivity|].
  change (fun x : Doc.t => String.eqb (Patient.status (project x)) "checked_in")
    with is_checked_in.
  change (fun x : Doc.t => negb (String.eqb (Patient.status (project x)) "checked_in"))
    with (fun d : Doc.t => negb (is_checked_in d)).
  rewrite <- (filter_partition_length is_checked_in (selected date_str c)) at 1.
  lia.
Qed.

(** C9 as worded fails on an empty date: it is supplied, yet the listing
    covers the whole store, where no appointment is dated by the empty
    string. *)
Lemma patients_tracking_supplied_date_counterexample : ~ filters_by_supplied_date.
Proof.
  intros H.
  destruct (H [booked_doc 1%nat "CAR20240501-001" (sample_booking "Cardiology" "2024-05-01")]
              "") as (r & Hrun & Htotal).
  vm_compute in Hrun. injection Hrun as <-.
  vm_compute in Htotal. discriminate Htotal.
Qed.

(** Booking, check-in, then the listing of that day. *)
Example end_to_end_listing :
  let db1 := snd (create_appointment (sample_booking "Cardiology" "2024-05-01") (Some [])) in
  let db2 := snd (check_in 1000 (by_code_request "CAR20240501-001") db1) in
  option_map Patients.summary
    (match fst (patients_tracking (Some "2024-05-01") db2) with
     | Ok r => Some r
     | Raise _ => None
     end)
  = Some {| Summary.total := 1; Summary.checked_in := 1; Summary.booked := 0 |} /\
  option_map Patients.summary
    (match fst (patients_tracking (Some "") db1) with
     | Ok r => Some r
     | Raise _ => None
     end)
  = Some {| Summary.total := 1; Summary.checked_in := 0; Summary.booked := 1 |}.
Proof. vm_compute. split; reflexivity. Qed.

(** ** Availability *)

Lemma nearest_even_percent (n : Z) : nearest_even (n * 100) DEPARTMENT_CAPACITY = 4 * n.
Proof.
  unfold nearest_even, DEPARTMENT_CAPACITY.
  replace (n * 100) with (4 * n * 25) by lia.
  rewrite Z.mod_mul, Z.div_mul by lia. reflexivity.
Qed.

Lemma pct_is_fourfold_evaluated :
  holds_from pct_is_fourfold (Z.to_nat (MAX_EVALUATED + 1)) 0 = true.
Proof. vm_compute. reflexivity. Qed.

(** The percentage computed in binary64 is the exactly rounded one. *)
Lemma used_pct_of_exact (n : Z) (db : Db) :
  0 <= n <= MAX_EVALUATED ->
  used_pct_of n db = (Ok (nearest_even (n * 100) DEPARTMENT_CAPACITY), db).
Proof.
  intros Hn.
  assert (H : pct_is_fourfold n = true).
  { apply (holds_from_range _ _ _ pct_is_fourfold_evaluated). lia. }
  unfold pct_is_fourfold in H. unfold used_pct_of.
  change (negb (DEPARTMENT_CAPACITY =? 0)) with true. cbv iota.
  destruct (Py.round _) as [z|]; [|discriminate].
  apply Z.eqb_eq in H. now rewrite nearest_even_percent, H.
Qed.

Lemma get_availability_eq (department day_str : string) (db : Db) :
  In department DEPARTMENTS ->
  occupancy department day_str db <= MAX_EVALUATED ->
  get_availability department day_str db =
    (Ok {| Availability.department := department;
           Availability.date := day_str;
           Availability.capacity := DEPARTMENT_CAPACITY;
           Availability.booked := occupancy department day_str db;
           Availability.remaining :=
             Z.max 0 (DEPARTMENT_CAPACITY - occupancy department day_str db);
           Availability.used_pct :=
             nearest_even (occupancy department day_str db * 100) DEPARTMENT_CAPACITY |},
     db).
Proof.
  intros Hin Hmax. unfold get_availability.
  apply in_DEPARTMENTS_In in Hin. rewrite Hin, guard_true, reads_bind.
  rewrite count_booked_for_occupancy.
  pose proof (occupancy_nonneg department day_str db) as Hnn.
  rewrite (bind_Ok _ _ _ _ _ (used_pct_of_exact _ db (conj Hnn Hmax))).
  reflexivity.
Qed.

(** C4.  For a department of the registry and any date string, the
    availability reports as [booked] the number of persisted appointments
    whose department and date equal the arguments, as [remaining] the
    larger of 0 and 25 - booked, and as [used_pct] the integer nearest to
    booked / 25 * 100, which is 4 * booked; so remaining + booked = 25 up to
    25 bookings and remaining = 0 beyond.  The store is only read. *)
Theorem get_availability_metrics (department day_str : string) (db : Db) :
  In department DEPARTMENTS ->
  occupancy department day_str db <= MAX_EVALUATED ->
  exists a,
    get_availability department day_str db = (Ok a, db) /\
    Availability.capacity a = 25 /\
    Availability.booked a = occupancy department day_str db /\
    Availability.remaining a = Z.max 0 (25 - Availability.booked a) /\
    Availability.used_pct a = nearest_even (Availability.booked a * 100) 25 /\
    Availability.used_pct a = 4 * Availability.booked a /\
    (Availability.booked a <= 25 ->
     Availability.remaining a + Availability.booked a = 25) /\
    (25 < Availability.booked a -> Availability.remaining a = 0).
Proof.
  intros Hin Hmax. eexists. split; [now apply get_availability_eq|].
  cbn [Availability.capacity Availability.booked Availability.remaining
       Availability.used_pct].
  change DEPARTMENT_CAPACITY with 25.
  repeat split; try lia.
  apply (nearest_even_percent (occupancy department day_str db)).
Qed.

Lemma get_availability_metrics_witness :
  exists a,
    get_availability "Cardiology" "2024-05-01" (store_with 7 "Cardiology" "2024-05-01")
    = (Ok a, store_with 7 "Cardiology" "2024-05-01") /\
    Availability.booked a = 7 /\ Availability.remaining a = 18 /\
    Availability.used_pct a = 28.
Proof.
  assert (Hocc : occupancy "Cardiology" "2024-05-01" (store_with 7 "Cardiology" "2024-05-01")
                 = 7) by (vm_compute; reflexivity).
  destruct (get_availability_metrics "Cardiology" "2024-05-01"
              (store_with 7 "Cardiology" "2024-05-01"))
    as (a & Hrun & _ & Hb & Hr & _ & Hp & _).
  - cbn. auto.
  - rewrite Hocc. vm_compute. discriminate.
  - exists a. split; [exact Hrun|]. rewrite Hocc in Hb. rewrite Hr, Hp, Hb.
    repeat split.
Defined.

(** Ties go to the even integer, and an overbooked slot exceeds 100. *)
Example nearest_even_examples :
  nearest_even 1 2 = 0 /\ nearest_even 3 2 = 2 /\ nearest_even 5 2 = 2 /\
  nearest_even 7 3 = 2 /\ nearest_even 8 3 = 3 /\
  fst (used_pct_of 26 None) = Ok 104 /\
  Py.mul_int (Py.truediv 7 25) 100 = S754_finite false 7881299347898369 (-48).
Proof. vm_compute. repeat split. Qed.

(** ** The calendar of a month *)

Lemma dict_set_fresh {V} (d : Dict V) (k : string) (v : V) :
  ~ In k (keys d) -> dict_set d k v = (d ++ [(k, v)])%list.
Proof.
  unfold keys. induction d as [|[k' v'] d IH]; cbn [dict_set map In fst app]; intros Hk.
  - reflexivity.
  - destruct (String.eqb k' k) eqn:E.
    + apply String.eqb_eq in E. tauto.
    + rewrite IH; tauto.
Qed.

Lemma for_each_reads {A S} (f : S -> A -> S) (body : S -> A -> M S) (db : Db)
    (xs : list A) (s : S) :
  (forall s x, In x xs -> body s x db = (Ok (f s x), db)) ->
  for_each xs body s db = (Ok (fold_left f xs s), db).
Proof.
  revert s. induction xs as [|x xs IH]; intros s H; cbn [for_each fold_left].
  - reflexivity.
  - rewrite (bind_Ok _ _ _ _ _ (H s x (or_introl eq_refl))).
    apply IH. intros s' x' Hx'. apply H. now right.
Qed.

Lemma digit_char_inj (a b : Z) :
  0 <= a <= 9 -> 0 <= b <= 9 -> digit_char a = digit_char b -> a = b.
Proof.
  intros Ha Hb H. unfold digit_char in H.
  apply (f_equal nat_of_ascii) in H.
  rewrite !nat_ascii_embedding in H by lia. lia.
Qed.

Lemma two_digits_inj (a b : Z) :
  0 <= a <= 99 -> 0 <= b <= 99 -> two_digits a = two_digits b -> a = b.
Proof.
  intros Ha Hb H. unfold two_digits in H. injection H as H1 H0.
  pose proof (Z.mod_pos_bound a 10 eq_refl) as Ma.
  pose proof (Z.mod_pos_bound b 10 eq_refl) as Mb.
  pose proof (Z.div_mod a 10 ltac:(discriminate)) as Da.
  pose proof (Z.div_mod b 10 ltac:(discriminate)) as Db.
  apply digit_char_inj in H1; [|lia|lia].
  apply digit_char_inj in H0; [|lia|lia].
  lia.
Qed.

Lemma string_app_inv_head (p a b : string) : (p ++ a)%string = (p ++ b)%string -> a = b.
Proof.
  induction p as [|ch p IH]; cbn [String.append]; intros H; [assumption|].
  injection H as H. now apply IH.
Qed.

Lemma iso_date_inj (year month a b : Z) :
  0 <= a <= 99 -> 0 <= b <= 99 -> iso_date year month a = iso_date year month b -> a = b.
Proof.
  intros Ha Hb H. unfold iso_date in H.
  do 4 apply string_app_inv_head in H. now apply two_digits_inj.
Qed.

Lemma mod_400_mod_4 (year : Z) : (year mod 400 =? 0) = true -> (year mod 4 =? 0) = true.
Proof.
  intros H. apply Z.eqb_eq in H. apply Z.eqb_eq.
  rewrite (Z.div_mod year 400) by discriminate. rewrite H.
  replace (400 * (year / 400) + 0) with (100 * (year / 400) * 4) by lia.
  apply Z.mod_mul. discriminate.
Qed.

Lemma days_in_month_gregorian (year month : Z) :
  1 <= month <= 12 ->
  Py.days_in_month year month = gregorian_month_length year month /\
  28 <= gregorian_month_length year month <= 31.
Proof.
  intros Hm.
  assert (Hcases : month = 1 \/ month = 2 \/ month = 3 \/ month = 4 \/ month = 5 \/
                   month = 6 \/ month = 7 \/ month = 8 \/ month = 9 \/ month = 10 \/
                   month = 11 \/ month = 12) by lia.
  unfold Py.days_in_month, Py.is_leap, gregorian_month_length.
  destruct (year mod 400 =? 0) eqn:H400.
  - rewrite (mod_400_mod_4 year H400).
    destruct (year mod 100 =? 0);
      repeat (destruct Hcases as [->|Hcases]; [now vm_compute|]); subst; now vm_compute.
  - destruct (year mod 4 =? 0), (year mod 100 =? 0);
      repeat (destruct Hcases as [->|Hcases]; [now vm_compute|]); subst; now vm_compute.
Qed.

(** [date(...)] succeeds exactly on the days of the month, and its
    [strftime] is the ISO date. *)
Lemma mk_date_iso (year month day : Z) :
  1970 <= year <= 2100 -> 1 <= month <= 12 -> 0 <= day <= 99 ->
  option_map Py.strftime_ymd (Py.mk_date year month day)
  = if andb (1 <=? day) (day <=? gregorian_month_length year month)
    then Some (iso_date year month day) else None.
Proof.
  intros Hy Hm Hd. unfold Py.mk_date.
  destruct (days_in_month_gregorian year month Hm) as [-> _].
  replace (andb (1 <=? year) (year <=? 9999)) with true by (symmetry; apply andb_true_iff; lia).
  replace (andb (1 <=? month) (month <=? 12)) with true by (symmetry; apply andb_true_iff; lia).
  cbn [negb].
  destruct (andb (1 <=? day) (day <=? gregorian_month_length year month)); cbn [negb option_map];
    [|reflexivity].
  unfold Py.strftime_ymd, iso_date. cbn [Py.year Py.month Py.day].
  rewrite format_04d_four_digits, !format_02d_two_digits by lia. reflexivity.
Qed.

Lemma range_In (a b d : Z) : In d (Py.range a b) <-> a <= d < b.
Proof.
  unfold Py.range. rewrite in_map_iff. split.
  - intros (k & <- & Hk). apply in_seq in Hk. lia.
  - intros Hd. exists (Z.to_nat (d - a)). split; [lia|]. apply in_seq. lia.
Qed.

Lemma range_NoDup (a b : Z) : NoDup (Py.range a b).
Proof.
  unfold Py.range. apply NoDup_map_NoDup_ForallPairs; [|apply seq_NoDup].
  intros x y _ _ H. lia.
Qed.

Lemma calendar_day_eq (department : string) (year month : Z) (db : Db)
    (days : Dict DayEntry.t) (day : Z) :
  1970 <= year <= 2100 -> 1 <= month <= 12 -> 0 <= day <= 99 ->
  (forall day_str, occupancy department day_str db <= MAX_EVALUATED) ->
  calendar_day department year month days day db
  = (Ok (calendar_step department year month db days day), db).
Proof.
  intros Hy Hm Hd Hmax. unfold calendar_day, calendar_step, filed, in_month.
  pose proof (mk_date_iso year month day Hy Hm Hd) as Hiso.
  destruct (Py.mk_date year month day) as [dt|]; cbn [option_map] in Hiso.
  - destruct (andb _ _); [|discriminate]. injection Hiso as ->.
    rewrite reads_bind, count_booked_for_occupancy.
    pose proof (occupancy_nonneg department (iso_date year month day) db) as Hnn.
    rewrite (bind_Ok _ _ _ _ _ (used_pct_of_exact _ db (conj Hnn (Hmax _)))).
    reflexivity.
  - destruct (andb _ _); [discriminate | reflexivity].
Qed.

(** The loop files the days of the month among its candidates one after
    the other, none of them replacing an earlier one. *)
Lemma fold_calendar_step (department : string) (year month : Z) (db : Db)
    (ds done : list Z) :
  NoDup (done ++ ds) ->
  (forall d, In d (done ++ ds) -> 0 <= d <= 99) ->
  fold_left (calendar_step department year month db) ds
    (map (filed department year month db) done)
  = map (filed department year month db) (done ++ filter (in_month year month) ds).
Proof.
  revert done. induction ds as [|d ds IH]; intros done Hnd Hbound; cbn [fold_left filter].
  - now rewrite app_nil_r.
  - assert (Hnd' : NoDup ((done ++ [d]) ++ ds)) by now rewrite <- app_assoc.
    assert (Hbound' : forall x, In x ((done ++ [d]) ++ ds) -> 0 <= x <= 99)
      by (intros x Hx; apply Hbound; now rewrite <- app_assoc in Hx).
    unfold calendar_step at 2. destruct (in_month year month d).
    + rewrite dict_set_fresh.
      * replace (map (filed department year month db) done
                 ++ [(fst (filed department year month db d),
                      snd (filed department year month db d))])%list
          with (map (filed department year month db) (done ++ [d]))
          by (rewrite map_app; reflexivity).
        rewrite (IH _ Hnd' Hbound'), <- app_assoc. reflexivity.
      * unfold keys. rewrite map_map. cbn [filed fst]. rewrite in_map_iff.
        intros (x & Hx & Hin).
        apply iso_date_inj in Hx;
          [|apply Hbound, in_or_app; now left
           |apply Hbound, in_or_app; right; now left].
        subst x. apply NoDup_remove_2 in Hnd. apply Hnd, in_or_app. now left.
    + apply IH.
      * now apply NoDup_remove_1 in Hnd.
      * intros x Hx. apply Hbound. apply in_app_or in Hx as [Hx|Hx];
          apply in_or_app; [now left | right; now right].
Qed.

Lemma days_of_month (year month : Z) :
  1 <= month <= 12 ->
  filter (in_month year month) (Py.range 1 32)
  = Py.range 1 (gregorian_month_length year month + 1).
Proof.
  intros Hm. destruct (days_in_month_gregorian year month Hm) as [_ Hlen].
  unfold in_month.
  assert (Hc : gregorian_month_length year month = 28 \/
               gregorian_month_length year month = 29 \/
               gregorian_month_length year month = 30 \/
               gregorian_month_length year month = 31) by lia.
  destruct Hc as [-> | [-> | [-> | ->]]]; reflexivity.
Qed.

Lemma occupancy_le_size (department day_str : string) (c : Collection) :
  occupancy department day_str (Some c) <= Z.of_nat (List.length c).
Proof.
  unfold occupancy. pose proof (filter_length_le (same_slot department day_str) c). lia.
Qed.

Lemma calendar_availability_eq (department : string) (year month : Z) (db : Db) :
  In department DEPARTMENTS ->
  1970 <= year <= 2100 -> 1 <= month <= 12 ->
  (forall day_str, occupancy department day_str db <= MAX_EVALUATED) ->
  calendar_availability department year month db
  = (Ok {| Calendar.department := department;
           Calendar.year := year;
           Calendar.month := month;
           Calendar.days := month_days department year month db |}, db).
Proof.
  intros Hin Hy Hm Hmax. unfold calendar_availability.
  replace (andb (1970 <=? year) (year <=? 2100)) with true
    by (symmetry; apply andb_true_iff; lia).
  replace (andb (1 <=? month) (month <=? 12)) with true
    by (symmetry; apply andb_true_iff; lia).
  apply in_DEPARTMENTS_In in Hin. rewrite Hin, !guard_true.
  assert (Hbound : forall d, In d ([] ++ Py.range 1 32) -> 0 <= d <= 99)
    by (intros d Hd; apply range_In in Hd; lia).
  rewrite (bind_Ok _ _ _ _ _
             (for_each_reads (calendar_step department year month db) _ db
                (Py.range 1 32) []
                (fun s x Hx => calendar_day_eq department year month db s x Hy Hm
                                 (Hbound x Hx) Hmax))).
  change (@nil (string * DayEntry.t)) with (map (filed department year month db) []).
  rewrite (fold_calendar_step department year month db (Py.range 1 32) []
             (range_NoDup 1 32) Hbound).
  cbn [app]. rewrite (days_of_month year month Hm). reflexivity.
Qed.

(** C6.  For a department of the registry, a year in 1970..2100 and a
    month in 1..12, the calendar holds one entry per day of that month and no
    other: its keys are the ISO dates of days 1 to the length of the month
    (28 to 31), distinct and in ascending day order, and each entry carries
    the figures that the availability of that date reports. *)
Theorem calendar_availability_days (department : string) (year month : Z) (db : Db) :
  In department DEPARTMENTS ->
  1970 <= year <= 2100 -> 1 <= month <= 12 ->
  (forall day_str, occupancy department day_str db <= MAX_EVALUATED) ->
  exists cal,
    calendar_availability department year month db = (Ok cal, db) /\
    Calendar.days cal = month_days department year month db /\
    keys (Calendar.days cal)
    = map (iso_date year month) (Py.range 1 (gregorian_month_length year month + 1)) /\
    NoDup (keys (Calendar.days cal)) /\
    28 <= gregorian_month_length year month <= 31 /\
    (forall key entry,
       In (key, entry) (Calendar.days cal) ->
       DayEntry.remaining entry = Z.max 0 (25 - DayEntry.booked entry) /\
       exists a,
         get_availability department key db = (Ok a, db) /\
         DayEntry.booked entry = Availability.booked a /\
         DayEntry.remaining entry = Availability.remaining a /\
         DayEntry.used_pct entry = Availability.used_pct a /\
         DayEntry.capacity entry = Availability.capacity a).
Proof.
  intros Hin Hy Hm Hmax. eexists.
  split; [now apply calendar_availability_eq|].
  cbn [Calendar.days]. split; [reflexivity|].
  assert (Hkeys : keys (month_days department year month db)
                  = map (iso_date year month)
                      (Py.range 1 (gregorian_month_length year month + 1))).
  { unfold keys, month_days. rewrite map_map. reflexivity. }
  destruct (days_in_month_gregorian year month Hm) as [_ Hlen].
  split; [exact Hkeys|]. split; [|split; [exact Hlen|]].
  - rewrite Hkeys. apply NoDup_map_NoDup_ForallPairs; [|apply range_NoDup].
    intros a b Ha Hb Hab. apply range_In in Ha, Hb.
    apply (iso_date_inj year month); [lia | lia | exact Hab].
  - intros key entry Hentry. unfold month_days in Hentry.
    apply in_map_iff in Hentry as (d & [= <- <-] & _).
    split; [reflexivity|].
    eexists. split; [apply get_availability_eq; [assumption | apply Hmax]|].
    repeat split.
Qed.

Lemma calendar_availability_days_witness :
  exists cal,
    calendar_availability "Cardiology" 2023 2 (store_with 3 "Cardiology" "2023-02-14")
    = (Ok cal, store_with 3 "Cardiology" "2023-02-14") /\
    List.length (Calendar.days cal) = 28%nat /\
    ~ In "2023-02-30" (keys (Calendar.days cal)) /\
    ~ In "2023-02-29" (keys (Calendar.days cal)) /\
    nth 13 (Calendar.days cal) ("", day_entry 0) = ("2023-02-14", day_entry 3).
Proof.
  destruct (store_with 3 "Cardiology" "2023-02-14") as [c|] eqn:Hc;
    [|vm_compute in Hc; discriminate].
  destruct (calendar_availability_days "Cardiology" 2023 2 (Some c))
    as (cal & Hrun & Hdays & _).
  - cbn. auto.
  - lia.
  - lia.
  - intros day_str. pose proof (occupancy_le_size "Cardiology" day_str c) as H.
    replace (List.length c) with 3%nat in H
      by (vm_compute in Hc; injection Hc as <-; reflexivity).
    unfold MAX_EVALUATED. lia.
  - exists cal. split; [exact Hrun|]. rewrite Hdays.
    vm_compute in Hc. injection Hc as <-.
    split; [reflexivity|]. split; [|split]; try reflexivity.
    + vm_compute. intuition discriminate.
    + vm_compute. intuition discriminate.
Defined.

(** April has thirty entries and none for the 31st; February of a leap
    year has twenty-nine. *)
Example calendar_examples :
  keys (month_days "General" 2023 4 (Some []))
  = map (iso_date 2023 4) (Py.range 1 31) /\
  last (keys (month_days "General" 2023 4 (Some []))) "" = "2023-04-30" /\
  List.length (month_days "General" 2024 2 (Some [])) = 29%nat /\
  List.length (month_days "General" 2100 2 (Some [])) = 28%nat /\
  option_map (fun cal => keys (Calendar.days cal))
    (match fst (calendar_availability "General" 2023 4 (Some [])) with
     | Ok cal => Some cal
     | Raise _ => None
     end)
  = Some (map (iso_date 2023 4) (Py.range 1 31)).
Proof. vm_compute. repeat split. Qed.

(** ** The life of an appointment *)

Lemma used_pct_of_keeps_store (n : Z) (db : Db) : snd (used_pct_of n db) = db.
Proof.
  unfold used_pct_of. destruct (negb _); [|reflexivity].
  destruct (Py.round _); reflexivity.
Qed.

Lemma bind_keeps_store {A B} (m : M A) (k : A -> M B) (db : Db) :
  snd (m db) = db -> (forall a, snd (k a db) = db) -> snd (bind m k db) = db.
Proof.
  intros Hm Hk. unfold bind. destruct (m db) as [[a|e] db1]; cbn [snd] in *; subst.
  - apply Hk.
  - reflexivity.
Qed.

Lemma guard_keeps_store (b : bool) (e : Exn) (db : Db) : snd (guard b e db) = db.
Proof. destruct b; reflexivity. Qed.

Lemma for_each_keeps_store {A S} (xs : list A) (body : S -> A -> M S) (s : S) (db : Db) :
  (forall s x, snd (body s x db) = db) -> snd (for_each xs body s db) = db.
Proof.
  intros H. revert s. induction xs as [|x xs IH]; intros s; cbn [for_each].
  - reflexivity.
  - apply bind_keeps_store; [apply H | apply IH].
Qed.

Lemma get_availability_keeps_store (department date_str : string) (db : Db) :
  snd (get_availability department date_str db) = db.
Proof.
  unfold get_availability.
  apply bind_keeps_store; [apply guard_keeps_store|]. intros _.
  apply bind_keeps_store; [reflexivity|]. intros booked.
  apply bind_keeps_store; [apply used_pct_of_keeps_store|]. reflexivity.
Qed.

Lemma calendar_availability_keeps_store (department : string) (year month : Z) (db : Db) :
  snd (calendar_availability department year month db) = db.
Proof.
  unfold calendar_availability.
  do 3 (apply bind_keeps_store; [apply guard_keeps_store|]; intros _).
  apply bind_keeps_store; [|reflexivity].
  apply for_each_keeps_store. intros days day. unfold calendar_day.
  destruct (Py.mk_date year month day); [|reflexivity].
  apply bind_keeps_store; [reflexivity|]. intros booked.
  apply bind_keeps_store; [apply used_pct_of_keeps_store|]. reflexivity.
Qed.

Lemma get_documents_keeps_store (q : Query) (db : Db) : snd (get_documents q db) = db.
Proof. destruct db; reflexivity. Qed.

Lemma patients_tracking_keeps_store (date_str : option string) (db : Db) :
  snd (patients_tracking date_str db) = db.
Proof.
  unfold patients_tracking.
  apply bind_keeps_store; [apply get_documents_keeps_store | reflexivity].
Qed.

Lemma fresh_id_above (c : Collection) (d : Doc.t) :
  In d c -> (Doc._id d < fresh_id c)%nat.
Proof.
  unfold fresh_id. induction c as [|x c IH]; cbn [In map fold_right]; [contradiction|].
  intros [->|Hin]; [lia|]. specialize (IH Hin). lia.
Qed.

Lemma fresh_id_fresh (c : Collection) : ~ In (fresh_id c) (map Doc._id c).
Proof.
  intros H. apply in_map_iff in H as (d & Hid & Hin).
  pose proof (fresh_id_above c d Hin). lia.
Qed.

Lemma NoDup_snoc {A} (l : list A) (x : A) :
  NoDup l -> ~ In x l -> NoDup (l ++ [x]).
Proof.
  induction l as [|y l IH]; cbn [app]; intros Hnd Hx.
  - constructor; [intros [] | constructor].
  - inversion Hnd as [|? ? Hy Hl]; subst. constructor.
    + intros Hin. apply in_app_or in Hin as [Hin|[->|[]]]; [contradiction|].
      apply Hx. now left.
    + apply IH; [assumption|]. intros Hin. apply Hx. now right.
Qed.

Lemma update_one_split (f : Doc.t -> Doc.t) (c : Collection) (appt : Doc.t) :
  In appt c -> NoDup (map Doc._id c) ->
  exists pre post,
    c = (pre ++ appt :: post)%list /\
    update_one (Doc._id appt) f c = (pre ++ f appt :: post)%list.
Proof.
  intros Hin Hnd. induction c as [|d c IH]; [contradiction|].
  inversion Hnd as [|? ? Hnotin Hnd']; subst. cbn [update_one].
  destruct (Nat.eqb (Doc._id d) (Doc._id appt)) eqn:Hid.
  - apply Nat.eqb_eq in Hid. destruct Hin as [->|Hin].
    + exists [], c. split; reflexivity.
    + exfalso. apply Hnotin. rewrite Hid. now apply in_map.
  - destruct Hin as [->|Hin]; [rewrite Nat.eqb_refl in Hid; discriminate|].
    destruct (IH Hin Hnd') as (pre & post & -> & Hupd).
    exists (d :: pre), post. split; [reflexivity|]. cbn [app]. now rewrite Hupd.
Qed.

Lemma lifecycle_not_checked_in (d : Doc.t) :
  lifecycle_ok d -> String.eqb (Doc.status d) "checked_in" = false ->
  Doc.status d = "booked".
Proof.
  intros [[H _]|[H _]] Hne; [assumption|].
  rewrite H in Hne. discriminate.
Qed.

(** What one request does to a store in order. *)
Lemma run_effect (op : Op) (db : Db) :
  store_ok db -> step_effect op db (run op db).
Proof.
  intros [Hids Hlife]. destruct op as [payload|utcnow payload| | | |];
    cbn [run step_effect].
  - (* booking *)
    rewrite create_appointment_eq.
    destruct (negb _); [now left|].
    destruct (DEPARTMENT_CAPACITY <=? _); [now left|].
    destruct (negb _); [now left|].
    destruct db as [c|]; [|now left].
    right. eexists. eexists. cbn [snd]. split; [reflexivity|]. split; [reflexivity|].
    split; [reflexivity|]. split; [reflexivity|]. apply fresh_id_fresh.
  - (* check-in *)
    destruct db as [c|]; [|now left].
    destruct (check_in_query payload (Some c)) as [[q|e] db1] eqn:Hq;
      pose proof (check_in_query_keeps_store _ _ _ _ Hq) as ->.
    2: { rewrite (check_in_no_query _ _ _ _ Hq). now left. }
    rewrite (check_in_with_query _ _ _ _ Hq). unfold settle.
    destruct (find_one q c) as [appt|] eqn:Hfind; [|now left].
    cbn [snd]. destruct (String.eqb (Doc.status appt) "checked_in") eqn:Hst; [now left|].
    destruct (find_Some_In _ _ _ Hfind) as [Hin _].
    destruct (update_one_split (Doc.set_checked_in "checked_in" utcnow) c appt Hin Hids)
      as (pre & post & -> & ->).
    right. exists pre, appt, post. split; [reflexivity|]. split; [|reflexivity].
    apply lifecycle_not_checked_in; [|assumption].
    rewrite Forall_forall in Hlife. apply Hlife, in_or_app. right. now left.
  - apply get_availability_keeps_store.
  - apply calendar_availability_keeps_store.
  - apply get_documents_keeps_store.
  - apply patients_tracking_keeps_store.
Qed.

Lemma step_effect_store_ok (op : Op) (db db' : Db) :
  store_ok db -> step_effect op db db' -> store_ok db'.
Proof.
  intros Hok Heff.
  assert (Hsame : db' = db -> store_ok db') by (now intros ->).
  destruct op; cbn [step_effect] in Heff; try (now apply Hsame).
  - destruct Heff as [->|(c & d & -> & -> & Hst & Hat & Hfresh)]; [assumption|].
    destruct Hok as [Hids Hlife]. split.
    + cbn [ids_unique] in *. rewrite map_app. cbn [map].
      now apply NoDup_snoc.
    + apply Forall_app. split; [assumption|].
      constructor; [left; now split | constructor].
  - destruct Heff as [->|(pre & d & post & -> & Hst & ->)]; [assumption|].
    destruct Hok as [Hids Hlife]. split.
    + cbn [ids_unique] in *. rewrite map_app in *. exact Hids.
    + apply Forall_app in Hlife as [Hpre Hpost]. apply Forall_app. split; [assumption|].
      inversion Hpost; subst. constructor; [|assumption].
      right. split; [reflexivity | discriminate].
Qed.

Lemma run_all_store_ok (ops : list Op) (db : Db) :
  store_ok db -> store_ok (run_all ops db).
Proof.
  revert db. induction ops as [|op ops IH]; intros db Hok; cbn [run_all fold_left].
  - assumption.
  - apply IH. apply (step_effect_store_ok op db); [assumption | now apply run_effect].
Qed.

Lemma initial_store_ok (db : Db) : initial db -> store_ok db.
Proof.
  intros [->| ->]; split; cbn; auto using NoDup_nil.
Qed.

Lemma doc_evolves_facts (d d' : Doc.t) :
  doc_evolves d d' ->
  Doc._id d' = Doc._id d /\
  (Doc.status d = "checked_in" -> d' = d) /\
  (Doc.status d' = "booked" -> d' = d).
Proof.
  intros [->|(Hst & ts & ->)]; [repeat split|].
  split; [reflexivity|]. split.
  - intros H. rewrite H in Hst. discriminate.
  - cbn. discriminate.
Qed.

Lemma doc_evolves_trans (a b c : Doc.t) :
  doc_evolves a b -> doc_evolves b c -> doc_evolves a c.
Proof.
  intros Hab [->|(Hst & ts & ->)]; [assumption|].
  destruct Hab as [->|(_ & ts' & ->)].
  - right. split; [assumption | now exists ts].
  - cbn in Hst. discriminate.
Qed.

Lemma doc_evolves_lifecycle (d d' : Doc.t) :
  lifecycle_ok d -> doc_evolves d d' -> lifecycle_ok d'.
Proof.
  intros Hok [->|(_ & ts & ->)]; [assumption|].
  right. split; [reflexivity | discriminate].
Qed.

Lemma Forall2_doc_evolves_refl (c : Collection) : Forall2 doc_evolves c c.
Proof. induction c; constructor; [now left | assumption]. Qed.

Lemma Forall2_doc_evolves_trans (a b c : Collection) :
  Forall2 doc_evolves a b -> Forall2 doc_evolves b c -> Forall2 doc_evolves a c.
Proof.
  intros Hab. revert c. induction Hab as [|x y a b Hxy Hab IH]; intros c Hbc.
  - inversion Hbc. constructor.
  - inversion Hbc as [|? z ? c' Hyz Hbc']; subst. constructor.
    + now apply (doc_evolves_trans x y z).
    + now apply IH.
Qed.

Lemma Forall2_doc_evolves_lifecycle (a b : Collection) :
  Forall lifecycle_ok a -> Forall2 doc_evolves a b -> Forall lifecycle_ok b.
Proof.
  intros Ha Hab. induction Hab as [|x y a b Hxy Hab IH]; [constructor|].
  inversion Ha; subst. constructor.
  - now apply (doc_evolves_lifecycle x).
  - now apply IH.
Qed.

Lemma evolves_refl (db : Db) : evolves db db.
Proof.
  destruct db as [c|]; cbn; [|exact I].
  exists c, []. rewrite app_nil_r. split; [reflexivity|].
  split; [apply Forall2_doc_evolves_refl | constructor].
Qed.

Lemma evolves_trans (a b c : Db) : evolves a b -> evolves b c -> evolves a c.
Proof.
  destruct a as [ca|], b as [cb|], c as [cc|]; cbn; try tauto.
  intros (kept & born & -> & Hkept & Hborn) (kept' & born' & -> & Hkept' & Hborn').
  apply Forall2_app_inv_l in Hkept' as (ka & kb & Hka & Hkb & ->).
  exists ka, (kb ++ born')%list. split; [now rewrite app_assoc|]. split.
  - now apply (Forall2_doc_evolves_trans ca kept ka).
  - apply Forall_app. split; [|assumption].
    now apply (Forall2_doc_evolves_lifecycle born kb).
Qed.

Lemma step_effect_evolves (op : Op) (db db' : Db) :
  step_effect op db db' -> evolves db db'.
Proof.
  intros Heff.
  assert (Hsame : db' = db -> evolves db db') by (intros ->; apply evolves_refl).
  destruct op; cbn [step_effect] in Heff; try (now apply Hsame).
  - destruct Heff as [->|(c & d & -> & -> & Hst & Hat & _)]; [apply evolves_refl|].
    cbn. exists c, [d]. split; [reflexivity|].
    split; [apply Forall2_doc_evolves_refl|].
    constructor; [left; now split | constructor].
  - destruct Heff as [->|(pre & d & post & -> & Hst & ->)]; [apply evolves_refl|].
    cbn. eexists. exists []. rewrite app_nil_r. split; [reflexivity|].
    split; [|constructor].
    apply Forall2_app; [apply Forall2_doc_evolves_refl|].
    constructor; [|apply Forall2_doc_evolves_refl].
    right. split; [assumption | now exists utcnow].
Qed.

Lemma run_all_evolves (ops : list Op) (db : Db) :
  store_ok db -> evolves db (run_all ops db).
Proof.
  revert db. induction ops as [|op ops IH]; intros db Hok; cbn [run_all fold_left].
  - apply evolves_refl.
  - pose proof (run_effect op db Hok) as Heff.
    apply (evolves_trans db (run op db)).
    + now apply (step_effect_evolves op).
    + apply IH. now apply (step_effect_store_ok op db).
Qed.

(** C8.  In every store reached from the start by serving requests one at
    a time, each appointment is [booked] without a check-in time or
    [checked_in] with one.  A request changes the store in two ways only:
    a booking appends one appointment, booked and without check-in time, and
    a check-in turns one booked appointment into a checked-in one carrying
    the time of the call.  Over any further requests every appointment
    stays in place under its identifier, and one that is checked in is never
    altered again. *)
Theorem appointment_lifecycle (db0 : Db) (ops : list Op) :
  initial db0 ->
  store_ok (run_all ops db0) /\
  (forall c d,
     run_all ops db0 = Some c -> In d c ->
     Doc.status d = "booked" \/ Doc.status d = "checked_in") /\
  (forall op, step_effect op (run_all ops db0) (run op (run_all ops db0))) /\
  (forall ops', evolves (run_all ops db0) (run_all ops' (run_all ops db0))) /\
  (forall d d',
     doc_evolves d d' ->
     Doc._id d' = Doc._id d /\
     (Doc.status d = "checked_in" -> d' = d) /\
     (Doc.status d' = "booked" -> d' = d)).
Proof.
  intros Hinit.
  pose proof (run_all_store_ok ops db0 (initial_store_ok db0 Hinit)) as Hok.
  split; [exact Hok|]. split; [|split; [|split]].
  - intros c d Hc Hin. destruct Hok as [_ Hlife]. rewrite Hc in Hlife.
    rewrite Forall_forall in Hlife. destruct (Hlife d Hin) as [[H _]|[H _]]; auto.
  - intros op. now apply run_effect.
  - intros ops'. now apply run_all_evolves.
  - apply doc_evolves_facts.
Qed.

Lemma appointment_lifecycle_witness :
  run_all [Book (sample_booking "Cardiology" "2024-05-01");
           CheckInAt 1000 (by_code_request "CAR20240501-001");
           Book (sample_booking "Cardiology" "2024-05-01");
           CheckInAt 2000 (by_code_request "CAR20240501-001");
           Patients_of None] (Some [])
  = Some [Doc.set_checked_in "checked_in" 1000
            (booked_doc 1%nat "CAR20240501-001" (sample_booking "Cardiology" "2024-05-01"));
          booked_doc 2%nat "CAR20240501-002" (sample_booking "Cardiology" "2024-05-01")] /\
  store_ok
    (run_all [Book (sample_booking "Cardiology" "2024-05-01");
              CheckInAt 1000 (by_code_request "CAR20240501-001");
              Book (sample_booking "Cardiology" "2024-05-01");
              CheckInAt 2000 (by_code_request "CAR20240501-001");
              Patients_of None] (Some [])).
Proof.
  split; [vm_compute; reflexivity|].
  apply (appointment_lifecycle (Some [])). right. reflexivity.
Defined.

(** *** The capacity of a slot, one request at a time *)

Lemma occupancy_middle (department day_str : string) (pre post : Collection) (d d' : Doc.t) :
  same_slot department day_str d' = same_slot department day_str d ->
  occupancy department day_str (Some (pre ++ d' :: post)%list)
  = occupancy department day_str (Some (pre ++ d :: post)%list).
Proof.
  intros H. unfold occupancy. rewrite !filter_app, !length_app. cbn [filter].
  rewrite H. destruct (same_slot department day_str d); reflexivity.
Qed.

Lemma run_within_capacity (op : Op) (db : Db) :
  store_ok db -> within_capacity db -> within_capacity (run op db).
Proof.
  intros Hok Hcap.
  pose proof (run_effect op db Hok) as Heff.
  remember (run op db) as db' eqn:Hrun.
  destruct op as [payload|utcnow payload| | | |]; cbn [step_effect] in Heff;
    try (rewrite Heff; assumption).
  - (* booking: the slot was below the capacity *)
    clear Heff. subst db'. cbn [run]. rewrite create_appointment_eq.
    destruct (negb _); [assumption|].
    destruct (DEPARTMENT_CAPACITY <=? _) eqn:Hfull; [assumption|].
    destruct (negb _); [assumption|].
    destruct db as [c|]; [|assumption].
    cbn [snd]. intros department day_str. rewrite occupancy_app.
    apply Z.leb_gt in Hfull. specialize (Hcap department day_str).
    destruct (same_slot department day_str _) eqn:Hslot; [|lia].
    unfold same_slot in Hslot. cbn [booked_doc Doc.department Doc.date] in Hslot.
    apply andb_true_iff in Hslot as [Hd Ht].
    apply String.eqb_eq in Hd, Ht. subst. lia.
  - (* check-in: the slot of the document is not touched *)
    clear Hrun. destruct Heff as [->|(pre & d & post & -> & _ & ->)]; [assumption|].
    intros department day_str. rewrite (occupancy_middle _ _ pre post d); [apply Hcap|].
    reflexivity.
Qed.

(** Served one at a time from the start, the requests never fill a slot
    beyond the capacity. *)
Lemma run_all_within_capacity (ops : list Op) (db : Db) :
  store_ok db -> within_capacity db -> within_capacity (run_all ops db).
Proof.
  revert db. induction ops as [|op ops IH]; intros db Hok Hcap; cbn [run_all fold_left].
  - assumption.
  - apply IH.
    + apply (step_effect_store_ok op db); [assumption | now apply run_effect].
    + now apply run_within_capacity.
Qed.

Lemma initial_within_capacity (db : Db) : initial db -> within_capacity db.
Proof. intros [->| ->] department day_str; cbn; unfold DEPARTMENT_CAPACITY; lia. Qed.

Lemma reachable_within_evaluated (db0 : Db) (ops : list Op) (department day_str : string) :
  initial db0 -> occupancy department day_str (run_all ops db0) <= MAX_EVALUATED.
Proof.
  intros Hinit.
  pose proof (run_all_within_capacity ops db0 (initial_store_ok db0 Hinit)
                (initial_within_capacity db0 Hinit) department day_str) as H.
  unfold DEPARTMENT_CAPACITY in H. unfold MAX_EVALUATED. lia.
Qed.

(** * Further properties of the handlers *)

(** ** What a check-in leaves alone *)

(** The store a check-in leaves: the one it found, or that one with the
    first document of the reported identifier marked. *)
Lemma check_in_store (utcnow : datetime) (payload : CheckInRequest.t) (db : Db) :
  snd (check_in utcnow payload db) = db \/
  exists c r,
    db = Some c /\ fst (check_in utcnow payload db) = Ok r /\
    snd (check_in utcnow payload db)
    = Some (update_one (CheckIn.id r) (Doc.set_checked_in "checked_in" utcnow) c).
Proof.
  destruct db as [c|]; [|now left].
  destruct (check_in_query payload (Some c)) as [[q|e] db1] eqn:Hq;
    pose proof (check_in_query_keeps_store _ _ _ _ Hq) as ->.
  2: { rewrite (check_in_no_query _ _ _ _ Hq). now left. }
  rewrite (check_in_with_query _ _ _ _ Hq). unfold settle.
  destruct (find_one q c) as [appt|]; [|now left].
  cbn [fst snd]. destruct (String.eqb (Doc.status appt) "checked_in"); [now left|].
  right. eexists. eexists. split; [reflexivity|]. split; reflexivity.
Qed.

Lemma update_one_blanked (oid : ObjectId) (s : string) (ts : datetime) (c : Collection) :
  map blanked (update_one oid (Doc.set_checked_in s ts) c) = map blanked c.
Proof.
  induction c as [|d c IH]; cbn [update_one map]; [reflexivity|].
  destruct (Nat.eqb (Doc._id d) oid); cbn [map]; [reflexivity | now rewrite IH].
Qed.

Lemma update_one_other (oid : ObjectId) (f : Doc.t -> Doc.t) (c : Collection)
    (i : nat) (d : Doc.t) :
  nth_error c i = Some d -> Doc._id d <> oid ->
  nth_error (update_one oid f c) i = Some d.
Proof.
  revert i. induction c as [|x c IH]; intros i Hi Hne; [destruct i; discriminate|].
  cbn [update_one]. destruct (Nat.eqb (Doc._id x) oid) eqn:Hx.
  - destruct i as [|i]; cbn [nth_error] in *; [|assumption].
    injection Hi as ->. apply Nat.eqb_eq in Hx. contradiction.
  - destruct i as [|i]; cbn [nth_error] in *; [assumption | now apply IH].
Qed.

Lemma occupancy_blanked (department day_str : string) (c : Collection) :
  occupancy department day_str (Some (map blanked c)) = occupancy department day_str (Some c).
Proof.
  unfold occupancy. f_equal.
  induction c as [|d c IH]; cbn [map filter]; [reflexivity|].
  change (same_slot department day_str (blanked d)) with (same_slot department day_str d).
  destruct (same_slot department day_str d); cbn [List.length]; now rewrite IH.
Qed.

Lemma occupancy_same_blanked (department day_str : string) (c c' : Collection) :
  map blanked c' = map blanked c ->
  occupancy department day_str (Some c') = occupancy department day_str (Some c).
Proof.
  intros H. now rewrite <- (occupancy_blanked _ _ c'), H, occupancy_blanked.
Qed.

(** X1.  A check-in, successful or not, moves no appointment between slots: the
    count of every department and date is what it was, so checking in
    neither frees nor takes a place. *)
Theorem check_in_keeps_counts (utcnow : datetime) (payload : CheckInRequest.t) (db : Db)
    (department day_str : string) :
  count_booked_for department day_str (snd (check_in utcnow payload db))
  = count_booked_for department day_str db.
Proof.
  rewrite !count_booked_for_occupancy.
  destruct (check_in_store utcnow payload db) as [->|(c & r & -> & _ & ->)]; [reflexivity|].
  apply occupancy_same_blanked, update_one_blanked.
Qed.

(** X2.  A successful check-in changes nothing but the check-in state of
    documents carrying the identifier it reports: the collection keeps its
    length and order, every document keeps all its other fields, and a
    document with another identifier is left exactly as it was. *)
Theorem check_in_touches_only_target (utcnow : datetime) (payload : CheckInRequest.t)
    (c : Collection) (r : CheckIn.t) (db' : Db) :
  check_in utcnow payload (Some c) = (Ok r, db') ->
  exists c',
    db' = Some c' /\
    map blanked c' = map blanked c /\
    (forall i d,
       nth_error c i = Some d -> Doc._id d <> CheckIn.id r -> nth_error c' i = Some d).
Proof.
  intros Hrun.
  destruct (check_in_store utcnow payload (Some c)) as [Hsame|(c0 & r0 & Hc0 & Hr0 & Hupd)];
    rewrite Hrun in *; cbn [fst snd] in *.
  - exists c. subst db'. repeat split. auto.
  - injection Hc0 as <-. injection Hr0 as <-. subst db'.
    eexists. split; [reflexivity|]. split; [apply update_one_blanked|].
    intros i d Hi Hne. now apply update_one_other.
Qed.

Lemma check_in_touches_only_target_witness :
  exists c r c',
    store_with 3 "Cardiology" "2024-05-01" = Some c /\
    check_in 1000 (by_code_request "CAR20240501-002") (Some c) = (Ok r, Some c') /\
    CheckIn.id r = 2%nat /\
    nth_error c' 0 = nth_error c 0 /\ nth_error c' 2 = nth_error c 2 /\
    nth_error c' 1 <> nth_error c 1.
Proof.
  destruct (store_with 3 "Cardiology" "2024-05-01") as [c|] eqn:Hc;
    [|vm_compute in Hc; discriminate].
  destruct (check_in 1000 (by_code_request "CAR20240501-002") (Some c)) as [[r|e] db']
    eqn:Hrun; [|vm_compute in Hc; injection Hc as <-; vm_compute in Hrun; discriminate].
  destruct (check_in_touches_only_target _ _ _ _ _ Hrun) as (c' & -> & _ & Hframe).
  exists c, r, c'. split; [reflexivity|]. split; [exact Hrun|].
  vm_compute in Hc. injection Hc as <-.
  assert (Hid : CheckIn.id r = 2%nat).
  { vm_compute in Hrun. now injection Hrun as <- _. }
  split; [exact Hid|]. rewrite Hid in Hframe.
  split; [apply Hframe; [reflexivity | cbn; lia]|].
  split; [apply Hframe; [reflexivity | cbn; lia]|].
  vm_compute in Hrun. injection Hrun as _ <-. cbn. discriminate.
Defined.

(** ** What a booking does to the counts *)

(** X3.  A successful booking adds one to the count of its own department and
    date and leaves the count of every other slot as it was. *)
Theorem booking_counts (payload : AppointmentCreate.t) (db db' : Db) (r : Booking.t)
    (department day_str : string) :
  create_appointment payload db = (Ok r, db') ->
  count_booked_for department day_str db'
  = count_booked_for department day_str db
    + (if andb (String.eqb (AppointmentCreate.department payload) department)
            (String.eqb (AppointmentCreate.date payload) day_str)
       then 1 else 0).
Proof.
  intros Hrun. rewrite create_appointment_eq in Hrun.
  destruct (negb _); [discriminate|].
  destruct (DEPARTMENT_CAPACITY <=? _); [discriminate|].
  destruct (negb _); [discriminate|].
  destruct db as [c|]; [|discriminate].
  injection Hrun as _ <-. rewrite !count_booked_for_occupancy, occupancy_app.
  reflexivity.
Qed.

Lemma booking_counts_witness :
  exists r db',
    create_appointment (sample_booking "Cardiology" "2024-05-01")
      (store_with 2 "Cardiology" "2024-05-01") = (Ok r, db') /\
    count_booked_for "Cardiology" "2024-05-01" db' = 3 /\
    count_booked_for "Cardiology" "2024-05-02" db' = 0 /\
    count_booked_for "Radiology" "2024-05-01" db' = 0.
Proof.
  destruct (create_appointment (sample_booking "Cardiology" "2024-05-01")
              (store_with 2 "Cardiology" "2024-05-01")) as [[r|e] db'] eqn:Hrun;
    [|vm_compute in Hrun; discriminate].
  exists r, db'. split; [reflexivity|].
  rewrite !(booking_counts _ _ _ _ _ _ Hrun). vm_compute. repeat split.
Defined.

(** ** The filtered listing *)

Lemma passes_spec (o : option string) (field : string) :
  passes o field = true <-> (forall s, o = Some s -> s <> "" -> field = s).
Proof.
  destruct o as [[|a s]|]; cbn [passes]; split; intros H; try reflexivity.
  - intros s [= <-] Hne. congruence.
  - intros s' [= <-] _. now apply String.eqb_eq.
  - apply String.eqb_eq. apply H; [reflexivity | discriminate].
  - intros s [=].
Qed.

Lemma matches_app (q1 q2 : Query) (d : Doc.t) :
  matches (q1 ++ q2)%list d = andb (matches q1 d) (matches q2 d).
Proof. unfold matches. apply forallb_app. Qed.

Lemma matches_filter_on_department (o : option string) (d : Doc.t) :
  matches (filter_on "department" o) d = passes o (Doc.department d).
Proof.
  destruct o as [[|a s]|]; cbn [filter_on Py.truthy passes]; try reflexivity.
  unfold matches. cbn. now rewrite andb_true_r.
Qed.

Lemma matches_filter_on_date (o : option string) (d : Doc.t) :
  matches (filter_on "date" o) d = passes o (Doc.date d).
Proof.
  destruct o as [[|a s]|]; cbn [filter_on Py.truthy passes]; try reflexivity.
  unfold matches. cbn. now rewrite andb_true_r.
Qed.

(** X4.  For a department argument that is left out or one of the
    literals, the listing on an available store returns, in store order and
    without writing, exactly the documents of that department (when given)
    whose date equals the date argument (when given and not empty); a date
    left out or empty filters nothing. *)
Theorem list_appointments_listed (department date_str : option string) (c : Collection) :
  typed_department department ->
  exists docs,
    list_appointments department date_str (Some c) = (Ok docs, Some c) /\
    docs = filter (listed department date_str) c /\
    (forall d,
       In d docs <->
       In d c /\
       (forall s, department = Some s -> Doc.department d = s) /\
       (forall s, date_str = Some s -> s <> "" -> Doc.date d = s)).
Proof.
  intros Htyped.
  exists (filter (listed department date_str) c).
  assert (Hext : filter (matches (filter_on "department" department
                                    ++ filter_on "date" date_str)%list) c
                 = filter (listed department date_str) c).
  { apply filter_ext. intros d.
    now rewrite matches_app, matches_filter_on_department, matches_filter_on_date. }
  split; [unfold list_appointments, get_documents; now rewrite Hext|].
  split; [reflexivity|].
  intros d. rewrite filter_In. unfold listed. rewrite andb_true_iff, !passes_spec.
  assert (Hdep : (forall s, department = Some s -> s <> "" -> Doc.department d = s)
                 <-> (forall s, department = Some s -> Doc.department d = s)).
  { split; intros H s Hs; [|now auto].
    apply H; [assumption|]. subst department. cbn in Htyped.
    now apply DepartmentName_not_empty. }
  tauto.
Qed.

Lemma list_appointments_listed_witness :
  exists docs,
    list_appointments (Some "General") (Some "")
      (Some [booked_doc 1%nat "CAR20240501-001" (sample_booking "Cardiology" "2024-05-01");
             booked_doc 2%nat "GEN20240501-001" (sample_booking "General" "2024-05-01");
             booked_doc 3%nat "GEN20240502-001" (sample_booking "General" "2024-05-02")])
    = (Ok docs,
       Some [booked_doc 1%nat "CAR20240501-001" (sample_booking "Cardiology" "2024-05-01");
             booked_doc 2%nat "GEN20240501-001" (sample_booking "General" "2024-05-01");
             booked_doc 3%nat "GEN20240502-001" (sample_booking "General" "2024-05-02")]) /\
    docs = [booked_doc 2%nat "GEN20240501-001" (sample_booking "General" "2024-05-01");
            booked_doc 3%nat "GEN20240502-001" (sample_booking "General" "2024-05-02")].
Proof.
  destruct (list_appointments_listed (Some "General") (Some "")
              [booked_doc 1%nat "CAR20240501-001" (sample_booking "Cardiology" "2024-05-01");
               booked_doc 2%nat "GEN20240501-001" (sample_booking "General" "2024-05-01");
               booked_doc 3%nat "GEN20240502-001" (sample_booking "General" "2024-05-02")])
    as (docs & Hrun & Hdocs & _).
  - cbn. auto.
  - exists docs. split; [exact Hrun|]. rewrite Hdocs. reflexivity.
Defined.

(** ** An unavailable store *)

(** X7.  While the store is unavailable the availability endpoints do not fail:
    they report every day of a registered department as empty (0 booked, 25
    remaining, 0 percent used).  The check-in is refused with
    "Database not available" whatever the request holds. *)
Theorem unavailable_store (department : string) :
  In department DEPARTMENTS ->
  (forall date_str,
     get_availability department date_str None
     = (Ok {| Availability.department := department;
              Availability.date := date_str;
              Availability.capacity := 25;
              Availability.booked := 0;
              Availability.remaining := 25;
              Availability.used_pct := 0 |}, None)) /\
  (forall year month,
     1970 <= year <= 2100 -> 1 <= month <= 12 ->
     exists cal,
       calendar_availability department year month None = (Ok cal, None) /\
       forall key entry,
         In (key, entry) (Calendar.days cal) ->
         entry = {| DayEntry.booked := 0; DayEntry.remaining := 25;
                    DayEntry.used_pct := 0; DayEntry.capacity := 25 |}) /\
  (forall utcnow payload,
     check_in utcnow payload None = (Raise DatabaseNotAvailable, None)).
Proof.
  intros Hin. split; [|split].
  - intros date_str. rewrite get_availability_eq; [reflexivity | assumption|].
    cbn. unfold MAX_EVALUATED. lia.
  - intros year month Hy Hm. eexists. split.
    + apply calendar_availability_eq; try assumption.
      intros day_str. cbn. unfold MAX_EVALUATED. lia.
    + cbn [Calendar.days]. unfold month_days. intros key entry Hentry.
      apply in_map_iff in Hentry as (d & [= _ <-] & _). reflexivity.
  - reflexivity.
Qed.

Lemma unavailable_store_witness :
  fst (get_availability "Radiology" "2024-05-01" None)
  = Ok {| Availability.department := "Radiology";
          Availability.date := "2024-05-01";
          Availability.capacity := 25;
          Availability.booked := 0;
          Availability.remaining := 25;
          Availability.used_pct := 0 |}.
Proof.
  assert (Hin : In "Radiology" DEPARTMENTS) by (cbn; auto).
  now rewrite (proj1 (unavailable_store "Radiology" Hin) "2024-05-01").
Defined.

(** ** Stores built by bookings *)

Lemma string_length_app (a b : string) :
  String.length (a ++ b) = (String.length a + String.length b)%nat.
Proof. induction a as [|ch a IH]; cbn; [reflexivity | now rewrite IH]. Qed.

Lemma string_app_inj_length (a1 a2 b1 b2 : string) :
  String.length a1 = String.length a2 ->
  (a1 ++ b1)%string = (a2 ++ b2)%string -> a1 = a2 /\ b1 = b2.
Proof.
  revert a2. induction a1 as [|x a1 IH]; intros [|y a2] Hlen H; try discriminate.
  - now split.
  - cbn in H, Hlen. injection H as -> H. injection Hlen as Hlen.
    destruct (IH a2 Hlen H) as [-> ->]. now split.
Qed.

Lemma date_ok_dashed (s : string) :
  Appointment.date_ok s = true ->
  dashed (Py.remove_char "-" s) = s /\ String.length (Py.remove_char "-" s) = 8%nat.
Proof.
  unfold Appointment.date_ok, Appointment.date_pattern.
  intros H.
  repeat match type of H with
  | Appointment.full_match (_ :: _) ?t = true =>
      destruct t as [|? ?]; [discriminate H|];
      rewrite full_match_cons in H; apply andb_true_iff in H; destruct H as [? H]
  end.
  match type of H with
  | Appointment.full_match [] ?t = true => destruct t; [|discriminate H]
  end.
  cbn [Appointment.token_matches] in *.
  repeat match goal with
  | E : Ascii.eqb _ "-" = true |- _ => apply Ascii.eqb_eq in E; subst
  end.
  cbn [Py.remove_char].
  repeat match goal with
  | E : Py.is_digit ?a = true |- _ => rewrite (is_digit_not_dash a E); clear E
  end.
  split; reflexivity.
Qed.

Lemma registry_prefix_inj (d1 d2 : string) :
  In d1 DEPARTMENTS -> In d2 DEPARTMENTS ->
  Py.upper (Py.slice_to 3 d1) = Py.upper (Py.slice_to 3 d2) -> d1 = d2.
Proof.
  unfold DEPARTMENTS. cbn [In].
  intros [<-|[<-|[<-|[<-|[<-|[]]]]]] [<-|[<-|[<-|[<-|[<-|[]]]]]] H;
    try reflexivity; vm_compute in H; discriminate H.
Qed.

Lemma registry_prefix_length (d : string) :
  In d DEPARTMENTS -> String.length (Py.upper (Py.slice_to 3 d)) = 3%nat.
Proof.
  unfold DEPARTMENTS. cbn [In]. intros [<-|[<-|[<-|[<-|[<-|[]]]]]]; reflexivity.
Qed.

Lemma three_digits_inj (a b : Z) :
  0 <= a <= 999 -> 0 <= b <= 999 -> three_digits a = three_digits b -> a = b.
Proof.
  intros Ha Hb H. unfold three_digits in H. injection H as H2 H1 H0.
  rewrite <- !(Z.div_div _ 10 10) in H2 by lia.
  pose proof (Z.div_mod a 10 ltac:(discriminate)) as Da.
  pose proof (Z.div_mod b 10 ltac:(discriminate)) as Db.
  pose proof (Z.div_mod (a / 10) 10 ltac:(discriminate)) as Da'.
  pose proof (Z.div_mod (b / 10) 10 ltac:(discriminate)) as Db'.
  pose proof (Z.mod_pos_bound a 10 eq_refl) as Ma.
  pose proof (Z.mod_pos_bound b 10 eq_refl) as Mb.
  pose proof (Z.mod_pos_bound (a / 10) 10 eq_refl) as Ma'.
  pose proof (Z.mod_pos_bound (b / 10) 10 eq_refl) as Mb'.
  apply digit_char_inj in H2; [|lia|lia].
  apply digit_char_inj in H1; [|lia|lia].
  apply digit_char_inj in H0; [|lia|lia].
  lia.
Qed.

(** A booking code determines its department, date and number. *)
Lemma code_of_inj (d1 d2 t1 t2 : string) (k1 k2 : Z) :
  In d1 DEPARTMENTS -> In d2 DEPARTMENTS ->
  Appointment.date_ok t1 = true -> Appointment.date_ok t2 = true ->
  0 <= k1 <= 999 -> 0 <= k2 <= 999 ->
  code_of d1 t1 k1 = code_of d2 t2 k2 ->
  d1 = d2 /\ t1 = t2 /\ k1 = k2.
Proof.
  intros Hd1 Hd2 Ht1 Ht2 Hk1 Hk2 H. unfold code_of in H.
  destruct (date_ok_dashed t1 Ht1) as [Hr1 Hl1].
  destruct (date_ok_dashed t2 Ht2) as [Hr2 Hl2].
  apply string_app_inj_length in H as [Hp H];
    [|now rewrite !registry_prefix_length].
  apply string_app_inj_length in H as [Hr H]; [|congruence].
  apply (string_app_inv_head "-") in H.
  rewrite !format_03d_three_digits in H by assumption.
  split; [now apply registry_prefix_inj|].
  split; [rewrite <- Hr1, <- Hr2; now f_equal | now apply three_digits_inj].
Qed.

Lemma occupancy_app_ge (department day_str : string) (c : Collection) (d : Doc.t) :
  occupancy department day_str (Some c)
  <= occupancy department day_str (Some (c ++ [d])%list).
Proof. rewrite occupancy_app. destruct (same_slot _ _ _); lia. Qed.

(** In a collection built by bookings every document is a valid
    appointment whose code carries a number between 1 and the present
    occupancy of its slot. *)
Lemma numbered_facts (c : Collection) :
  numbered c ->
  forall d, In d c ->
    In (Doc.department d) DEPARTMENTS /\
    Appointment.date_ok (Doc.date d) = true /\
    2 <= Py.len (Doc.patient_name d) /\
    exists k,
      1 <= k <= occupancy (Doc.department d) (Doc.date d) (Some c) /\
      Doc.booking_code d = Some (code_of (Doc.department d) (Doc.date d) k).
Proof.
  induction 1 as [|c x Hc IH Hdep Hdate Hname Hfree Hcode]; intros d Hin; [contradiction|].
  apply in_app_or in Hin as [Hin|[<-|[]]].
  - destruct (IH d Hin) as (H1 & H2 & H3 & k & Hk & Hk').
    repeat (split; [assumption|]). exists k. split; [|assumption].
    pose proof (occupancy_app_ge (Doc.department d) (Doc.date d) c x).
    unfold Collection in *. lia.
  - repeat (split; [assumption|]).
    exists (occupancy (Doc.department x) (Doc.date x) (Some c) + 1).
    split; [|assumption].
    rewrite occupancy_app, same_slot_refl.
    pose proof (occupancy_nonneg (Doc.department x) (Doc.date x) (Some c)).
    unfold Collection in *. lia.
Qed.

Lemma numbered_within_capacity (c : Collection) :
  numbered c -> within_capacity (Some c).
Proof.
  induction 1 as [|c x Hc IH Hdep Hdate Hname Hfree Hcode]; intros department day_str.
  - cbn. unfold DEPARTMENT_CAPACITY. lia.
  - rewrite occupancy_app. specialize (IH department day_str).
    unfold Collection in *.
    destruct (same_slot department day_str x) eqn:Hslot; [|lia].
    unfold same_slot in Hslot. apply andb_true_iff in Hslot as [Hd Ht].
    apply String.eqb_eq in Hd, Ht. subst. lia.
Qed.

(** The code of the next booking of a slot is carried by no document yet. *)
Lemma next_code_fresh (c : Collection) (department day_str : string) (d : Doc.t) :
  numbered c ->
  In department DEPARTMENTS -> Appointment.date_ok day_str = true ->
  In d c ->
  Doc.booking_code d
  <> Some (code_of department day_str (occupancy department day_str (Some c) + 1)).
Proof.
  intros Hnum Hdep Hdate Hin Heq.
  destruct (numbered_facts c Hnum d Hin) as (Hd & Ht & _ & k & Hk & Hcode).
  pose proof (numbered_within_capacity c Hnum (Doc.department d) (Doc.date d)) as Hcap1.
  pose proof (numbered_within_capacity c Hnum department day_str) as Hcap2.
  pose proof (occupancy_nonneg department day_str (Some c)) as Hnn.
  unfold DEPARTMENT_CAPACITY, Collection in *.
  assert (Heq' : code_of (Doc.department d) (Doc.date d) k
                 = code_of department day_str (occupancy department day_str (Some c) + 1))
    by congruence.
  apply code_of_inj in Heq' as (Hd' & Ht' & Hk'); try assumption; try lia.
  rewrite Hd', Ht' in Hk. lia.
Qed.

Lemma numbered_codes_NoDup (c : Collection) :
  numbered c -> NoDup (map Doc.booking_code c).
Proof.
  induction 1 as [|c x Hc IH Hdep Hdate Hname Hfree Hcode]; [constructor|].
  rewrite map_app. cbn [map]. apply NoDup_snoc; [assumption|].
  intros Hin. apply in_map_iff in Hin as (d & Hd & Hin).
  apply (next_code_fresh c (Doc.department x) (Doc.date x) d Hc Hdep Hdate Hin).
  now rewrite Hd.
Qed.

Lemma run_booked_in_order (op : Op) (db : Db) :
  booked_in_order db -> booked_in_order (run op db).
Proof.
  intros Hinv. destruct op as [payload|utcnow payload| | | |]; cbn [run].
  - rewrite create_appointment_eq.
    destruct (in_DEPARTMENTS _) eqn:Hdep; cbn [negb]; [|assumption].
    destruct (DEPARTMENT_CAPACITY <=? _) eqn:Hfull; [assumption|].
    destruct (andb _ _) eqn:Hval; cbn [negb]; [|assumption].
    destruct db as [c|]; [|assumption].
    cbn [snd booked_in_order] in *. rewrite map_app. cbn [map].
    apply andb_true_iff in Hval as [Hname Hdate].
    apply Z.leb_le in Hname. apply Z.leb_gt in Hfull. apply in_DEPARTMENTS_In in Hdep.
    apply numbered_snoc; cbn [blanked booked_doc Doc.department Doc.date Doc.patient_name
                               Doc.booking_code]; try assumption.
    + now rewrite occupancy_blanked.
    + now rewrite occupancy_blanked.
  - destruct (check_in_store utcnow payload db) as [->|(c & r & -> & _ & ->)]; [assumption|].
    cbn [booked_in_order] in *. now rewrite update_one_blanked.
  - now rewrite get_availability_keeps_store.
  - now rewrite calendar_availability_keeps_store.
  - unfold list_appointments. now rewrite get_documents_keeps_store.
  - now rewrite patients_tracking_keeps_store.
Qed.

Lemma run_all_booked_in_order (ops : list Op) (db : Db) :
  booked_in_order db -> booked_in_order (run_all ops db).
Proof.
  revert db. induction ops as [|op ops IH]; intros db Hinv; cbn [run_all fold_left].
  - assumption.
  - apply IH. now apply run_booked_in_order.
Qed.

Lemma initial_booked_in_order (db : Db) : initial db -> booked_in_order db.
Proof. intros [->| ->]; cbn; [exact I | constructor]. Qed.

Lemma code_of_not_empty (department day_str : string) (k : Z) :
  In department DEPARTMENTS -> code_of department day_str k <> "".
Proof.
  intros Hin. unfold code_of.
  pose proof (registry_prefix_length department Hin) as Hlen.
  destruct (Py.upper (Py.slice_to 3 department)); [discriminate Hlen | discriminate].
Qed.

(** X8.  Every document of a store reached by serving requests one at a time
    is a valid appointment: its department is registered, its date has the
    shape of the pattern, its name has two characters or more, and its
    booking code is the code of its department and date with a number
    between 1 and 25. *)
Theorem stored_documents_valid (db0 : Db) (ops : list Op) (c : Collection) (d : Doc.t) :
  initial db0 -> run_all ops db0 = Some c -> In d c ->
  In (Doc.department d) DEPARTMENTS /\
  Appointment.date_ok (Doc.date d) = true /\
  2 <= Py.len (Doc.patient_name d) /\
  exists k,
    1 <= k <= 25 /\
    Doc.booking_code d = Some (code_of (Doc.department d) (Doc.date d) k).
Proof.
  intros Hinit Hc Hin.
  pose proof (run_all_booked_in_order ops db0 (initial_booked_in_order db0 Hinit)) as Hinv.
  rewrite Hc in Hinv. cbn [booked_in_order] in Hinv.
  destruct (numbered_facts _ Hinv (blanked d) (in_map blanked c d Hin))
    as (H1 & H2 & H3 & k & Hk & Hcode).
  pose proof (numbered_within_capacity _ Hinv (Doc.department d) (Doc.date d)) as Hcap.
  cbn [blanked Doc.department Doc.date Doc.patient_name Doc.booking_code] in *.
  repeat (split; [assumption|]). exists k. split; [|assumption].
  unfold DEPARTMENT_CAPACITY, Collection in *. lia.
Qed.

Lemma stored_documents_valid_witness :
  In (Doc.department
        (Doc.set_checked_in "checked_in" 5
           (booked_doc 1%nat "RAD20240630-001" (sample_booking "Radiology" "2024-06-30"))))
    DEPARTMENTS /\
  run_all [Book (sample_booking "Radiology" "2024-06-30");
           Book (sample_booking "Radiology" "20240630");
           Book (sample_booking "radiology" "2024-06-30");
           CheckInAt 5 (by_code_request "RAD20240630-001")] (Some [])
  = Some [Doc.set_checked_in "checked_in" 5
            (booked_doc 1%nat "RAD20240630-001" (sample_booking "Radiology" "2024-06-30"))].
Proof.
  split; [|vm_compute; reflexivity].
  refine (proj1 (stored_documents_valid (Some [])
                   [Book (sample_booking "Radiology" "2024-06-30");
                    Book (sample_booking "Radiology" "20240630");
                    Book (sample_booking "radiology" "2024-06-30");
                    CheckInAt 5 (by_code_request "RAD20240630-001")]
                   _ _ (or_intror eq_refl) _ _)).
  - vm_compute. reflexivity.
  - left. reflexivity.
Defined.

(** X9.  In a store reached by serving requests one at a time no two documents
    carry the same booking code, and no code is missing or empty. *)
Theorem booking_codes_unique (db0 : Db) (ops : list Op) (c : Collection) :
  initial db0 -> run_all ops db0 = Some c ->
  NoDup (map Doc.booking_code c) /\
  (forall d, In d c -> exists code, Doc.booking_code d = Some code /\ code <> "").
Proof.
  intros Hinit Hc.
  pose proof (run_all_booked_in_order ops db0 (initial_booked_in_order db0 Hinit)) as Hinv.
  rewrite Hc in Hinv. cbn [booked_in_order] in Hinv. split.
  - pose proof (numbered_codes_NoDup _ Hinv) as Hnd.
    rewrite map_map in Hnd. exact Hnd.
  - intros d Hin.
    destruct (numbered_facts _ Hinv (blanked d) (in_map blanked c d Hin))
      as (Hdep & _ & _ & k & _ & Hcode).
    cbn [blanked Doc.department Doc.date Doc.booking_code] in *.
    eexists. split; [exact Hcode | now apply code_of_not_empty].
Qed.

Lemma booking_codes_unique_witness :
  NoDup (map Doc.booking_code
           (match run_all [Book (sample_booking "Cardiology" "2024-05-01");
                           Book (sample_booking "Cardiology" "2024-05-01");
                           Book (sample_booking "Cardiology" "2024-05-02");
                           Book (sample_booking "General" "2024-05-01")] (Some []) with
            | Some c => c
            | None => []
            end)).
Proof.
  destruct (run_all [Book (sample_booking "Cardiology" "2024-05-01");
                     Book (sample_booking "Cardiology" "2024-05-01");
                     Book (sample_booking "Cardiology" "2024-05-02");
                     Book (sample_booking "General" "2024-05-01")] (Some []))
    as [c|] eqn:Hc; [|constructor].
  exact (proj1 (booking_codes_unique (Some []) _ c (or_intror eq_refl) Hc)).
Defined.

(** X10.  In a store reached by serving requests one at a time no slot ever
    holds more than 25 appointments, so the availability of a registered
    department always succeeds there, with remaining + booked = 25 and a
    percentage between 0 and 100. *)
Theorem capacity_never_exceeded (db0 : Db) (ops : list Op) (department day_str : string) :
  initial db0 ->
  0 <= count_booked_for department day_str (run_all ops db0) <= 25 /\
  (In department DEPARTMENTS ->
   exists a,
     get_availability department day_str (run_all ops db0) = (Ok a, run_all ops db0) /\
     Availability.booked a = count_booked_for department day_str (run_all ops db0) /\
     Availability.remaining a + Availability.booked a = 25 /\
     0 <= Availability.remaining a <= 25 /\
     0 <= Availability.used_pct a <= 100).
Proof.
  intros Hinit.
  pose proof (run_all_within_capacity ops db0 (initial_store_ok db0 Hinit)
                (initial_within_capacity db0 Hinit) department day_str) as Hcap.
  pose proof (occupancy_nonneg department day_str (run_all ops db0)) as Hnn.
  rewrite count_booked_for_occupancy. unfold DEPARTMENT_CAPACITY in Hcap.
  split; [lia|]. intros Hin. eexists.
  split; [apply get_availability_eq; [assumption | unfold MAX_EVALUATED; lia]|].
  cbn [Availability.booked Availability.remaining Availability.used_pct].
  rewrite nearest_even_percent. unfold DEPARTMENT_CAPACITY. repeat split; lia.
Qed.

Lemma capacity_never_exceeded_witness :
  0 <= count_booked_for "Pediatrics" "2024-05-01"
         (run_all (repeat (Book (sample_booking "Pediatrics" "2024-05-01")) 30) (Some []))
    <= 25.
Proof.
  apply capacity_never_exceeded. right. reflexivity.
Defined.

(** Thirty bookings of one slot in a row leave twenty-five appointments. *)
Example thirty_bookings_leave_twenty_five :
  count_booked_for "Pediatrics" "2024-05-01"
    (run_all (repeat (Book (sample_booking "Pediatrics" "2024-05-01")) 30) (Some [])) = 25.
Proof. vm_compute. reflexivity. Qed.

(** ** From the booking to the check-in *)

Lemma find_app_last {A} (f : A -> bool) (l : list A) (x : A) :
  (forall y, In y l -> f y = false) -> f x = true -> find f (l ++ [x]) = Some x.
Proof.
  intros Hl Hx. induction l as [|y l IH]; cbn [app find].
  - now rewrite Hx.
  - rewrite (Hl y (or_introl eq_refl)). apply IH. intros z Hz. apply Hl. now right.
Qed.

Lemma update_one_app_last (f : Doc.t -> Doc.t) (c : Collection) (d : Doc.t) :
  (forall x, In x c -> Doc._id x <> Doc._id d) ->
  update_one (Doc._id d) f (c ++ [d])%list = (c ++ [f d])%list.
Proof.
  intros Hc. induction c as [|x c IH]; cbn [app update_one].
  - now rewrite Nat.eqb_refl.
  - destruct (Nat.eqb (Doc._id x) (Doc._id d)) eqn:Hx.
    + apply Nat.eqb_eq in Hx. exfalso. apply (Hc x); [now left | assumption].
    + f_equal. apply IH. intros y Hy. apply Hc. now right.
Qed.

(** X11.  In a store reached by serving requests one at a time, the code
    returned by a successful booking checks in that very booking: the
    check-in by this code alone succeeds, reports the identifier and the code
    of the booking, and marks the new document, the last of the store, and
    no other. *)
Theorem booking_then_check_in (db0 : Db) (ops : list Op) (payload : AppointmentCreate.t)
    (r : Booking.t) (db' : Db) (utcnow : datetime) :
  initial db0 ->
  create_appointment payload (run_all ops db0) = (Ok r, db') ->
  exists c d,
    run_all ops db0 = Some c /\ db' = Some (c ++ [d])%list /\
    Doc._id d = Booking.id r /\
    check_in utcnow (by_code_request (Booking.booking_code r)) db'
    = (Ok {| CheckIn.id := Booking.id r;
             CheckIn.status := "checked_in";
             CheckIn.booking_code := Some (Booking.booking_code r) |},
       Some (c ++ [Doc.set_checked_in "checked_in" utcnow d])%list).
Proof.
  intros Hinit Hrun.
  pose proof (run_all_booked_in_order ops db0 (initial_booked_in_order db0 Hinit)) as Hinv.
  rewrite create_appointment_eq in Hrun.
  destruct (in_DEPARTMENTS _) eqn:Hdep; cbn [negb] in Hrun; [|discriminate].
  destruct (DEPARTMENT_CAPACITY <=? _) eqn:Hfull; [discriminate|].
  destruct (andb _ _) eqn:Hval; cbn [negb] in Hrun; [|discriminate].
  destruct (run_all ops db0) as [c|]; [|discriminate].
  cbn [booked_in_order] in Hinv.
  apply andb_true_iff in Hval as [_ Hdate]. apply in_DEPARTMENTS_In in Hdep.
  injection Hrun as <- <-.
  set (code := next_booking_code payload (Some c)).
  set (d := booked_doc (fresh_id c) code payload).
  exists c, d. split; [reflexivity|]. split; [reflexivity|]. split; [reflexivity|].
  cbn [Booking.booking_code Booking.id].
  assert (Hcode : code = code_of (AppointmentCreate.department payload)
                           (AppointmentCreate.date payload)
                           (occupancy (AppointmentCreate.department payload)
                              (AppointmentCreate.date payload) (Some c) + 1))
    by reflexivity.
  rewrite (check_in_by_code utcnow (by_code_request code) _ code eq_refl).
  2: { rewrite Hcode. now apply code_of_not_empty. }
  rewrite (find_app_last (by_code code) c d).
  - unfold settle.
    change (String.eqb (Doc.status d) "checked_in") with false. cbv iota.
    f_equal. f_equal.
    apply (update_one_app_last (Doc.set_checked_in "checked_in" utcnow) c d).
    intros x Hx. pose proof (fresh_id_above c x Hx).
    change (Doc._id d) with (fresh_id c). lia.
  - intros x Hx. unfold by_code.
    destruct (Doc.booking_code x) as [s|] eqn:Hs; [|reflexivity].
    cbn [opt_eqb]. apply String.eqb_neq. intros ->.
    apply (next_code_fresh (map blanked c) (AppointmentCreate.department payload)
             (AppointmentCreate.date payload) (blanked x) Hinv Hdep Hdate
             (in_map blanked c x Hx)).
    cbn [blanked Doc.booking_code]. rewrite occupancy_blanked, Hs, Hcode. reflexivity.
  - unfold by_code. cbn [d booked_doc Doc.booking_code opt_eqb]. apply String.eqb_refl.
Qed.

Lemma booking_then_check_in_witness :
  exists r db' c d,
    create_appointment (sample_booking "Orthopedics" "2024-05-01")
      (run_all [Book (sample_booking "Orthopedics" "2024-05-01");
                Book (sample_booking "Orthopedics" "2024-05-01")] (Some []))
    = (Ok r, db') /\
    Booking.booking_code r = "ORT20240501-003" /\
    check_in 77 (by_code_request "ORT20240501-003") db'
    = (Ok {| CheckIn.id := 3%nat; CheckIn.status := "checked_in";
             CheckIn.booking_code := Some "ORT20240501-003" |},
       Some (c ++ [Doc.set_checked_in "checked_in" 77 d])%list).
Proof.
  destruct (create_appointment (sample_booking "Orthopedics" "2024-05-01")
              (run_all [Book (sample_booking "Orthopedics" "2024-05-01");
                        Book (sample_booking "Orthopedics" "2024-05-01")] (Some [])))
    as [[r|e] db'] eqn:Hrun; [|vm_compute in Hrun; discriminate].
  destruct (booking_then_check_in (Some []) _ _ _ _ 77 (or_intror eq_refl) Hrun)
    as (c & d & _ & _ & _ & Hcheck).
  assert (Hr : r = {| Booking.id := 3%nat; Booking.booking_code := "ORT20240501-003";
                      Booking.status := "booked" |}).
  { vm_compute in Hrun. now injection Hrun as <- _. }
  rewrite Hr in Hcheck. cbn [Booking.booking_code Booking.id] in Hcheck.
  exists r, db', c, d. split; [reflexivity|]. split; [now rewrite Hr | exact Hcheck].
Defined.

(** ** The pattern of the date *)

Lemma digit_char_is_digit (k : Z) : 0 <= k <= 9 -> Py.is_digit (digit_char k) = true.
Proof.
  intros Hk.
  assert (H : k = 0 \/ k = 1 \/ k = 2 \/ k = 3 \/ k = 4 \/ k = 5 \/ k = 6 \/ k = 7 \/
              k = 8 \/ k = 9) by lia.
  repeat (destruct H as [->|H]; [reflexivity|]). subst. reflexivity.
Qed.

Lemma mod_10_digit (k : Z) : Py.is_digit (digit_char (k mod 10)) = true.
Proof.
  apply digit_char_is_digit. pose proof (Z.mod_pos_bound k 10 eq_refl). lia.
Qed.

(** An ISO date is accepted by the pattern. *)
Lemma iso_date_ok (year month day : Z) :
  0 <= year <= 9999 -> 0 <= month <= 99 -> 0 <= day <= 99 ->
  Appointment.date_ok (iso_date year month day) = true.
Proof.
  intros Hy Hm Hd.
  assert (H1 : Py.is_digit (digit_char (year / 1000)) = true).
  { apply digit_char_is_digit. split; [apply Z.div_pos; lia|].
    apply Z.lt_succ_r. apply Z.div_lt_upper_bound; lia. }
  assert (H2 : Py.is_digit (digit_char (month / 10)) = true).
  { apply digit_char_is_digit. split; [apply Z.div_pos; lia|].
    apply Z.lt_succ_r. apply Z.div_lt_upper_bound; lia. }
  assert (H3 : Py.is_digit (digit_char (day / 10)) = true).
  { apply digit_char_is_digit. split; [apply Z.div_pos; lia|].
    apply Z.lt_succ_r. apply Z.div_lt_upper_bound; lia. }
  unfold Appointment.date_ok, Appointment.date_pattern, iso_date, four_digits, two_digits.
  cbn [String.append]. rewrite !full_match_cons. cbn [Appointment.token_matches].
  rewrite H1, H2, H3, !mod_10_digit. reflexivity.
Qed.

(** ** From the calendar to the booking *)

(** X13.  Every day the calendar shows with a place remaining can be booked
    under the very key of its entry: on an available store, a booking of
    that department for that key with a name of two characters or more
    succeeds and is persisted under that date. *)
Theorem calendar_day_bookable (department name : string) (year month : Z) (c : Collection)
    (cal : Calendar.t) (db' : Db) (key : string) (entry : DayEntry.t) :
  (forall day_str, occupancy department day_str (Some c) <= MAX_EVALUATED) ->
  calendar_availability department year month (Some c) = (Ok cal, db') ->
  In (key, entry) (Calendar.days cal) ->
  0 < DayEntry.remaining entry ->
  2 <= Py.len name ->
  exists r d,
    create_appointment (booking_for name department key) (Some c)
    = (Ok r, Some (c ++ [d])%list) /\
    Doc.date d = key /\ Doc.department d = department /\ Doc.status d = "booked".
Proof.
  intros Hmax Hrun Hentry Hleft Hname.
  assert (Hy : 1970 <= year <= 2100).
  { unfold calendar_availability in Hrun.
    destruct (andb (1970 <=? year) (year <=? 2100)) eqn:E; [|discriminate].
    apply andb_true_iff in E. lia. }
  assert (Hm : 1 <= month <= 12).
  { unfold calendar_availability in Hrun.
    replace (andb (1970 <=? year) (year <=? 2100)) with true in Hrun
      by (symmetry; apply andb_true_iff; lia).
    rewrite guard_true in Hrun.
    destruct (andb (1 <=? month) (month <=? 12)) eqn:E; [|discriminate].
    apply andb_true_iff in E. lia. }
  assert (Hin : In department DEPARTMENTS).
  { unfold calendar_availability in Hrun.
    replace (andb (1970 <=? year) (year <=? 2100)) with true in Hrun
      by (symmetry; apply andb_true_iff; lia).
    replace (andb (1 <=? month) (month <=? 12)) with true in Hrun
      by (symmetry; apply andb_true_iff; lia).
    rewrite !guard_true in Hrun.
    destruct (in_DEPARTMENTS department) eqn:E; [|discriminate].
    now apply in_DEPARTMENTS_In. }
  rewrite (calendar_availability_eq department year month (Some c) Hin Hy Hm Hmax) in Hrun.
  injection Hrun as <- <-. cbn [Calendar.days] in Hentry. unfold month_days in Hentry.
  apply in_map_iff in Hentry as (day & Heq & Hday).
  assert (Hkey : key = iso_date year month day) by congruence.
  assert (Hval : entry = day_entry (occupancy department (iso_date year month day) (Some c)))
    by congruence.
  clear Heq. subst key entry.
  apply range_In in Hday.
  destruct (days_in_month_gregorian year month Hm) as [_ Hlen].
  cbn [day_entry DayEntry.remaining] in Hleft.
  eexists. eexists. split.
  - apply create_appointment_free; cbn [booking_for AppointmentCreate.department
      AppointmentCreate.date AppointmentCreate.patient_name].
    + assumption.
    + unfold Collection in *. lia.
    + split; [assumption | apply iso_date_ok; lia].
  - repeat split.
Qed.

Lemma calendar_day_bookable_witness :
  exists cal entry r d,
    calendar_availability "Cardiology" 2024 2 (Some []) = (Ok cal, Some []) /\
    In ("2024-02-29", entry) (Calendar.days cal) /\
    create_appointment (booking_for "Bo Li" "Cardiology" "2024-02-29") (Some [])
    = (Ok r, Some [d]) /\
    Doc.date d = "2024-02-29".
Proof.
  destruct (calendar_availability "Cardiology" 2024 2 (Some [])) as [[cal|e] db'] eqn:Hrun;
    [|vm_compute in Hrun; discriminate].
  assert (Hcal : Calendar.days cal = month_days "Cardiology" 2024 2 (Some []) /\ db' = Some []).
  { vm_compute in Hrun. injection Hrun as <- <-. split; reflexivity. }
  destruct Hcal as [Hdays ->].
  assert (Hentry : In ("2024-02-29", day_entry 0) (Calendar.days cal)).
  { rewrite Hdays. vm_compute. do 28 right. left. reflexivity. }
  destruct (calendar_day_bookable "Cardiology" "Bo Li" 2024 2 [] cal (Some [])
              "2024-02-29" (day_entry 0)) as (r & d & Hbook & Hdate & _).
  - intros day_str. cbn. unfold MAX_EVALUATED. lia.
  - exact Hrun.
  - exact Hentry.
  - vm_compute. reflexivity.
  - vm_compute. discriminate.
  - exists cal, (day_entry 0), r, d. repeat split; assumption.
Defined.

(** ** The listing after a booking and after a check-in *)

Lemma selected_passes (date_str : option string) (c : Collection) :
  selected date_str c = filter (fun d => passes date_str (Doc.date d)) c.
Proof.
  destruct date_str as [[|a s]|]; cbn [selected passes].
  - symmetry. now apply filter_all.
  - reflexivity.
  - symmetry. now apply filter_all.
Qed.

Lemma patients_tracking_eq (date_str : option string) (c : Collection) :
  patients_tracking date_str (Some c) =
    (Ok {| Patients.summary :=
             {| Summary.total := Z.of_nat (List.length (selected date_str c));
                Summary.checked_in :=
                  Z.of_nat (List.length (filter is_checked_in (selected date_str c)));
                Summary.booked :=
                  Z.of_nat (List.length (filter (fun d => negb (is_checked_in d))
                                           (selected date_str c))) |};
           Patients.patients := map project (selected date_str c) |}, Some c).
Proof.
  unfold patients_tracking.
  rewrite (bind_Ok _ _ _ _ _ (get_documents_selected date_str c)).
  rewrite !count_if_filter, !filter_map_length, length_map. reflexivity.
Qed.

(** X14.  After a successful booking the listing of any date shows what it
    showed before and, when the date argument is left out, empty or the date
    of the booking, one more record at its end: the new appointment, booked,
    under the identifier and the code the booking returned. *)
Theorem booking_is_listed (payload : AppointmentCreate.t) (c : Collection)
    (r : Booking.t) (db' : Db) (date_str : option string) :
  create_appointment payload (Some c) = (Ok r, db') ->
  exists p p',
    patients_tracking date_str (Some c) = (Ok p, Some c) /\
    patients_tracking date_str db' = (Ok p', db') /\
    Patients.patients p'
    = (Patients.patients p
       ++ (if passes date_str (AppointmentCreate.date payload)
           then [{| Patient.id := Booking.id r;
                    Patient.patient_name := AppointmentCreate.patient_name payload;
                    Patient.phone := AppointmentCreate.phone payload;
                    Patient.email := AppointmentCreate.email payload;
                    Patient.department := AppointmentCreate.department payload;
                    Patient.date := AppointmentCreate.date payload;
                    Patient.status := "booked";
                    Patient.booking_code := Some (Booking.booking_code r) |}]
           else []))%list /\
    Summary.checked_in (Patients.summary p') = Summary.checked_in (Patients.summary p) /\
    Summary.booked (Patients.summary p')
    = Summary.booked (Patients.summary p)
      + (if passes date_str (AppointmentCreate.date payload) then 1 else 0) /\
    Summary.total (Patients.summary p')
    = Summary.total (Patients.summary p)
      + (if passes date_str (AppointmentCreate.date payload) then 1 else 0).
Proof.
  intros Hrun. rewrite create_appointment_eq in Hrun.
  destruct (negb _); [discriminate|].
  destruct (DEPARTMENT_CAPACITY <=? _); [discriminate|].
  destruct (negb _); [discriminate|].
  injection Hrun as <- <-.
  eexists. eexists. split; [apply patients_tracking_eq|].
  split; [apply patients_tracking_eq|].
  cbn [Patients.patients Patients.summary Summary.total Summary.checked_in Summary.booked
       Booking.id Booking.booking_code].
  rewrite !selected_passes, filter_app. cbn [filter booked_doc Doc.date].
  destruct (passes date_str (AppointmentCreate.date payload)).
  - rewrite map_app, !filter_app, !length_app. cbn. repeat split; lia.
  - rewrite !app_nil_r. repeat split; lia.
Qed.

Lemma booking_is_listed_witness :
  exists r db' p',
    create_appointment (sample_booking "General" "2024-05-03")
      (store_with 2 "Cardiology" "2024-05-01") = (Ok r, db') /\
    patients_tracking (Some "2024-05-03") db' = (Ok p', db') /\
    Summary.total (Patients.summary p') = 1 /\
    Summary.booked (Patients.summary p') = 1.
Proof.
  destruct (store_with 2 "Cardiology" "2024-05-01") as [c|] eqn:Hc;
    [|vm_compute in Hc; discriminate].
  destruct (create_appointment (sample_booking "General" "2024-05-03") (Some c))
    as [[r|e] db'] eqn:Hrun;
    [|vm_compute in Hc; injection Hc as <-; vm_compute in Hrun; discriminate].
  destruct (booking_is_listed _ _ _ _ (Some "2024-05-03") Hrun)
    as (p & p' & Hp & Hp' & _ & _ & Hbooked & Htotal).
  exists r, db', p'. split; [reflexivity|]. split; [exact Hp'|].
  rewrite Htotal, Hbooked.
  vm_compute in Hc. injection Hc as <-.
  vm_compute in Hp. injection Hp as <-. split; reflexivity.
Defined.

(** The document a check-in marks. *)
Lemma check_in_marks (utcnow : datetime) (payload : CheckInRequest.t)
    (c c' : Collection) (r : CheckIn.t) :
  ids_unique (Some c) ->
  check_in utcnow payload (Some c) = (Ok r, Some c') -> c' <> c ->
  exists pre d post,
    c = (pre ++ d :: post)%list /\
    c' = (pre ++ Doc.set_checked_in "checked_in" utcnow d :: post)%list /\
    is_checked_in d = false /\ Doc._id d = CheckIn.id r.
Proof.
  intros Hids Hrun Hne.
  destruct (check_in_query payload (Some c)) as [[q|e] db1] eqn:Hq;
    pose proof (check_in_query_keeps_store _ _ _ _ Hq) as ->.
  2: { rewrite (check_in_no_query _ _ _ _ Hq) in Hrun. discriminate. }
  rewrite (check_in_with_query _ _ _ _ Hq) in Hrun. unfold settle in Hrun.
  destruct (find_one q c) as [appt|] eqn:Hfind; [|discriminate].
  destruct (String.eqb (Doc.status appt) "checked_in") eqn:Hst.
  - injection Hrun as _ Hc. congruence.
  - injection Hrun as <- <-.
    destruct (find_Some_In _ _ _ Hfind) as [Hin _].
    destruct (update_one_split (Doc.set_checked_in "checked_in" utcnow) c appt Hin Hids)
      as (pre & post & -> & ->).
    exists pre, appt, post. repeat split. exact Hst.
Qed.

(** X15.  A check-in that marks an appointment moves exactly one patient from
    booked to checked in: in the listing of any date the total stays what it
    was, and when the listing covers the date of that appointment
    [checked_in] grows by one and [booked] shrinks by one. *)
Theorem check_in_moves_one_patient (utcnow : datetime) (payload : CheckInRequest.t)
    (c c' : Collection) (r : CheckIn.t) (date_str : option string) :
  ids_unique (Some c) ->
  check_in utcnow payload (Some c) = (Ok r, Some c') -> c' <> c ->
  exists d p p',
    In d c /\ Doc._id d = CheckIn.id r /\
    patients_tracking date_str (Some c) = (Ok p, Some c) /\
    patients_tracking date_str (Some c') = (Ok p', Some c') /\
    Summary.total (Patients.summary p') = Summary.total (Patients.summary p) /\
    Summary.checked_in (Patients.summary p')
    = Summary.checked_in (Patients.summary p)
      + (if passes date_str (Doc.date d) then 1 else 0) /\
    Summary.booked (Patients.summary p')
    = Summary.booked (Patients.summary p)
      - (if passes date_str (Doc.date d) then 1 else 0).
Proof.
  intros Hids Hrun Hne.
  destruct (check_in_marks utcnow payload c c' r Hids Hrun Hne)
    as (pre & d & post & -> & -> & Hst & Hid).
  exists d. eexists. eexists.
  split; [apply in_or_app; right; now left|]. split; [exact Hid|].
  split; [apply patients_tracking_eq|]. split; [apply patients_tracking_eq|].
  cbn [Patients.summary Summary.total Summary.checked_in Summary.booked].
  rewrite !selected_passes, !filter_app. cbn [filter Doc.set_checked_in Doc.date].
  destruct (passes date_str (Doc.date d)).
  - rewrite !length_app. cbn [filter]. rewrite Hst.
    change (is_checked_in (Doc.set_checked_in "checked_in" utcnow d)) with true.
    cbn [negb List.length]. repeat split; lia.
  - repeat split; lia.
Qed.

Lemma check_in_moves_one_patient_witness :
  exists r c' p',
    check_in 9 (by_code_request "CAR20240501-001")
      (Some [booked_doc 1%nat "CAR20240501-001" (sample_booking "Cardiology" "2024-05-01");
             booked_doc 2%nat "CAR20240501-002" (sample_booking "Cardiology" "2024-05-01")])
    = (Ok r, Some c') /\
    patients_tracking None (Some c') = (Ok p', Some c') /\
    Summary.total (Patients.summary p') = 2 /\
    Summary.checked_in (Patients.summary p') = 1 /\
    Summary.booked (Patients.summary p') = 1.
Proof.
  set (c := [booked_doc 1%nat "CAR20240501-001" (sample_booking "Cardiology" "2024-05-01");
             booked_doc 2%nat "CAR20240501-002" (sample_booking "Cardiology" "2024-05-01")]).
  destruct (check_in 9 (by_code_request "CAR20240501-001") (Some c)) as [[r|e] [c'|]]
    eqn:Hrun; try (vm_compute in Hrun; discriminate).
  assert (Hids : ids_unique (Some c)).
  { cbn. repeat constructor; cbn; intuition discriminate. }
  assert (Hne : c' <> c).
  { pose proof Hrun as H. vm_compute in H. injection H as _ <-. discriminate. }
  destruct (check_in_moves_one_patient 9 _ c c' r None Hids Hrun Hne)
    as (d & p & p' & _ & _ & Hp & Hp' & Ht & Hci & Hb).
  exists r, c', p'. split; [reflexivity|]. split; [exact Hp'|].
  vm_compute in Hp. injection Hp as <-.
  cbn [passes Patients.summary Summary.total Summary.checked_in Summary.booked] in Ht, Hci, Hb.
  rewrite Ht, Hci, Hb. repeat split.
Defined.

(** ** All or nothing *)

(** X16.  A booking either is refused and leaves the store exactly as it was, or
    succeeds and appends exactly one document: booked, not checked in,
    holding the fields of the payload, the returned code and the returned
    identifier, which no earlier document carries. *)
Theorem create_appointment_atomic (payload : AppointmentCreate.t) (db db' : Db)
    (res : Result Booking.t) :
  create_appointment payload db = (res, db') ->
  match res with
  | Raise _ => db' = db
  | Ok r =>
      Booking.status r = "booked" /\
      exists c,
        db = Some c /\
        db' = Some (c ++ [booked_doc (Booking.id r) (Booking.booking_code r) payload])%list /\
        ~ In (Booking.id r) (map Doc._id c)
  end.
Proof.
  rewrite create_appointment_eq.
  destruct (negb _); [now intros [= <- <-]|].
  destruct (DEPARTMENT_CAPACITY <=? _); [now intros [= <- <-]|].
  destruct (negb _); [now intros [= <- <-]|].
  destruct db as [c|]; [|now intros [= <- <-]].
  intros [= <- <-]. split; [reflexivity|].
  exists c. split; [reflexivity|]. split; [reflexivity|]. apply fresh_id_fresh.
Qed.

Lemma create_appointment_atomic_witness :
  snd (create_appointment (sample_booking "General" "May 1st")
         (store_with 2 "General" "2024-05-01"))
  = store_with 2 "General" "2024-05-01".
Proof.
  destruct (create_appointment (sample_booking "General" "May 1st")
              (store_with 2 "General" "2024-05-01")) as [[r|e] db'] eqn:Hrun;
    [vm_compute in Hrun; discriminate|].
  exact (create_appointment_atomic _ _ _ _ Hrun).
Defined.
